(** * LexBrowserAutomation: the navigation loop of [main.py]

    A shallow embedding of [WebsiteNavigator] (src/main.py, with the
    variant executor of src/sample.py) and of the properties its
    specification states about it.

    The browser (Playwright), the language model (Gemini) and Python's
    [json.loads] are external collaborators: the browser and the model are
    operations on an abstract world, each of which may raise; the decoder is
    a function from text to a decoded value.  The embedding records every
    call the code makes on them in a trace. *)

From Stdlib Require Import Bool Arith NArith List String Ascii Lia DecimalString.
Import ListNotations.
Open Scope string_scope.
Open Scope nat_scope.

Set Implicit Arguments.

(* ================================================================= *)
(** ** Python strings *)

Module PyStr.

Definition nl : ascii := ascii_of_nat 10.
Definition dq : ascii := ascii_of_nat 34.

(** [str.isspace] on the code points below 256; also the class [\s] of
    [re] on [str] patterns. *)
Definition is_space (c : ascii) : bool :=
  let n := nat_of_ascii c in
  ((9 <=? n) && (n <=? 13)) || ((28 <=? n) && (n <=? 32))
  || (n =? 133) || (n =? 160).

Fixpoint all_space (s : string) : bool :=
  match s with
  | EmptyString => true
  | String c r => is_space c && all_space r
  end.

Definition is_empty (s : string) : bool :=
  match s with EmptyString => true | String _ _ => false end.

Fixpoint lstrip (s : string) : string :=
  match s with
  | EmptyString => EmptyString
  | String c r => if is_space c then lstrip r else s
  end.

Fixpoint rstrip (s : string) : string :=
  match s with
  | EmptyString => EmptyString
  | String c r =>
      let r' := rstrip r in
      if is_space c && is_empty r' then EmptyString else String c r'
  end.

(** [s.strip()] *)
Definition strip (s : string) : string := rstrip (lstrip s).

(** [s.startswith(p)] *)
Definition startswith (s p : string) : bool := String.prefix p s.

(** [s[n:]] *)
Fixpoint drop (n : nat) (s : string) : string :=
  match n, s with
  | O, _ => s
  | S k, EmptyString => EmptyString
  | S k, String _ r => drop k r
  end.

Fixpoint take_while (p : ascii -> bool) (s : string) : string :=
  match s with
  | EmptyString => EmptyString
  | String c r => if p c then String c (take_while p r) else EmptyString
  end.

(** [p in s] *)
Fixpoint contains (p s : string) : bool :=
  String.prefix p s ||
  match s with
  | EmptyString => false
  | String _ r => contains p r
  end.

Fixpoint no_newline (p : string) : bool :=
  match p with
  | EmptyString => true
  | String c r => negb (Ascii.eqb c nl) && no_newline r
  end.

(** [str(n)] for a length. *)
Definition of_nat (n : nat) : string := NilEmpty.string_of_uint (Nat.to_uint n).

End PyStr.
Import PyStr.

(* ================================================================= *)
(** ** The two regular expressions of [main.py] *)

Module Regex.

Definition fence : string := "```".
Definition fence_json : string := "```json".

(** [$] under [re.MULTILINE]: the end of the text or just before a
    newline. *)
Definition at_eol (s : string) : bool :=
  match s with
  | EmptyString => true
  | String c _ => Ascii.eqb c nl
  end.

(** [re.sub] of the pattern [^```json|```$] by the empty text under
    [re.MULTILINE], scanning left to right.  [bol] says that the position is the start of the text or
    follows a newline ([^] under MULTILINE); [skip] counts the characters
    of a match still to be dropped.  The alternatives are tried in the
    order of the pattern; both consume at least three characters, so
    there is no empty match. *)
Fixpoint sub_fences_from (bol : bool) (skip : nat) (s : string) : string :=
  match s with
  | EmptyString => EmptyString
  | String c rest =>
      match skip with
      | S k => sub_fences_from false k rest
      | O =>
          if bol && String.prefix fence_json s then
            sub_fences_from false 6 rest
          else if String.prefix fence s && at_eol (drop 3 s) then
            sub_fences_from false 2 rest
          else String c (sub_fences_from (Ascii.eqb c nl) 0 rest)
      end
  end.

Definition sub_fences (s : string) : string := sub_fences_from true 0 s.

(** The class of the URL pattern: neither [\s] nor the double quote. *)
Definition url_char (c : ascii) : bool :=
  negb (is_space c) && negb (Ascii.eqb c dq).

(** A match of [https?://] followed by one or more characters of the
    class, as many as there are, anchored at the start of [s]. *)
Definition match_url_at (s : string) : option string :=
  if String.prefix "https://" s then
    let body := take_while url_char (drop 8 s) in
    if is_empty body then None else Some ("https://" ++ body)
  else if String.prefix "http://" s then
    let body := take_while url_char (drop 7 s) in
    if is_empty body then None else Some ("http://" ++ body)
  else None.

(** [re.search] of the URL pattern in [s]: the leftmost match. *)
Fixpoint search_url (s : string) : option string :=
  match match_url_at s with
  | Some u => Some u
  | None =>
      match s with
      | EmptyString => None
      | String _ rest => search_url rest
      end
  end.

End Regex.

(* ================================================================= *)
(** ** Decoded JSON *)

(** What [json.loads] returns.  An object is a Python [dict]; the
    association list keeps its keys in insertion order, each key once.  A
    number is carried by its [str()] rendering. *)
#[warnings="-register-all"]
Inductive json : Type :=
| JNull
| JBool (b : bool)
| JNum (rendering : string)
| JStr (s : string)
| JArr (items : list json)
| JObj (fields : list (string * json)).

(** An operation that returns a value or raises an [Exception]. *)
Inductive res (A : Type) : Type :=
| Ok (a : A)
| Exc.
Arguments Exc {A}.

Module Json.

Fixpoint assoc {A} (k : string) (l : list (string * A)) : option A :=
  match l with
  | [] => None
  | (k', v) :: l' => if String.eqb k k' then Some v else assoc k l'
  end.

(** [v[k]] for a string key: [KeyError] on a dict without the key,
    [TypeError] on anything that is not a dict. *)
Definition getitem (v : json) (k : string) : res json :=
  match v with
  | JObj fields =>
      match assoc k fields with
      | Some x => Ok x
      | None => Exc
      end
  | _ => Exc
  end.

(** [v.get(k, None)]: only a dict has the method. *)
Definition get (v : json) (k : string) : res json :=
  match v with
  | JObj fields =>
      match assoc k fields with
      | Some x => Ok x
      | None => Ok JNull
      end
  | _ => Exc
  end.

(** [v[0]]: the first item of a list, the first character of a string;
    [IndexError] when empty, [KeyError] on a dict (its keys are
    strings), [TypeError] otherwise. *)
Definition index0 (v : json) : res json :=
  match v with
  | JArr (x :: _) => Ok x
  | JStr (String c _) => Ok (JStr (String c EmptyString))
  | _ => Exc
  end.

(** [v == s] for a string literal [s]. *)
Definition eq_str (v : json) (s : string) : bool :=
  match v with
  | JStr t => String.eqb t s
  | _ => false
  end.

(** [not v] *)
Definition falsy (v : json) : bool :=
  match v with
  | JNull | JBool false | JStr EmptyString | JArr [] | JObj [] => true
  | JNum r => String.eqb r "0" || String.eqb r "0.0" || String.eqb r "-0.0"
  | _ => false
  end.

(** [v.strip()]: only a string has the method. *)
Definition strip (v : json) : res string :=
  match v with
  | JStr t => Ok (PyStr.strip t)
  | _ => Exc
  end.

End Json.

(* ================================================================= *)
(** ** The page, the oracle and the trace *)

(** An [ElementHandle] as [_process_elements] reads it: each of the four
    queries returns or raises. *)
Record ElementHandle : Type := {
  tag_name : res string;                     (* el.tagName.toLowerCase() *)
  inner_text : res string;
  attributes : res (list (string * string));
  is_visible : res bool
}.

(** An entry of [processed_tags]. *)
Record Content : Type := {
  text : string;
  attrs : list (string * string);
  visible : bool
}.

Record Tag : Type := {
  tag : string;
  content : Content
}.

(** The calls the navigator makes on its collaborators. *)
Inductive event : Type :=
| EvLaunch                      (* p.chromium.launch *)
| EvNewPage                     (* browser.new_page *)
| EvGoto (url : string)         (* page.goto *)
| EvQuery                       (* page.query_selector_all *)
| EvOracle (prompt : string)    (* gemini_object.gemini_response *)
| EvCount (selector : string)   (* page.locator(selector).count *)
| EvHover (selector : string)   (* page.locator(selector).hover *)
| EvWait (ms : N)               (* page.wait_for_timeout *)
| EvClick (selector : string)   (* page.click *)
| EvClose.                      (* browser.close *)

(** The collaborators.  [W] is the state of the world outside the
    navigator (the browser, the site, the model); every call may change it
    and may raise.  [recursion_limit] is the number of nested executor
    calls the interpreter allows before [RecursionError]. *)
Record Env (W : Type) : Type := {
  launch : W -> W * res unit;
  new_page : W -> W * res unit;
  goto : string -> W -> W * res unit;
  query_selector_all : string -> W -> W * res (list ElementHandle);
  gemini_response : string -> W -> W * res string;
  locator_count : string -> W -> W * res nat;
  locator_hover : string -> W -> W * res unit;
  wait_for_timeout : N -> W -> W * res unit;
  click : string -> W -> W * res unit;
  close : W -> W * res unit;
  json_loads : string -> res json;
  str_other : json -> string;        (* str() of a number, a list, a dict *)
  repr_tags : list Tag -> string;    (* repr of processed_tags *)
  recursion_limit : nat
}.

Record St (W : Type) : Type := {
  world : W;
  trace : list event
}.

(** [_click_recommended_elements] returns [True] or [False].  The embedding
    keeps which [return] was taken: [Continue] is the [True] of line 184,
    [Stop] the [False] of line 182 ([exit_now]), [Failed] every other
    [False].  The caller sees [truthy] only. *)
Inductive exec_outcome : Type := Continue | Stop | Failed.

Definition truthy (o : exec_outcome) : bool :=
  match o with Continue => true | Stop | Failed => false end.

(** What the hover block of lines 142-167 leaves to the rest of the
    function: a value to return, or nothing. *)
Inductive flow : Type :=
| Return_ (o : exec_outcome)
| FallThrough.

(** The exits of [visit_website], named after the states of the
    specification: [Completed] and [ActionFailed] are the [return False] of
    line 61 after the executor's [Stop] and [Failed]; [NoElements] is line
    43, [DecisionError] line 64; [InputError] is the [ValueError] of line 34
    and [PageError] any other exception, both reaching line 68; [Exhausted]
    is the end of the [for] loop. *)
Inductive terminal : Type :=
| Completed | NoElements | DecisionError | ActionFailed | Exhausted
| InputError | PageError.

(** A value [visit_website] can return, by its annotation
    [Optional[Dict]] and its [return] statements. *)
Inductive pyval : Type :=
| PNone
| PBool (b : bool)
| PDict (d : json).

Definition return_value (t : terminal) : pyval :=
  match t with
  | Completed | ActionFailed => PBool false
  | NoElements | DecisionError | Exhausted | InputError | PageError => PNone
  end.

(** How a call of [visit_website] ends: a [return], or the exception of a
    failing [browser.close()] in the [finally] block. *)
Inductive outcome : Type :=
| Returns (t : terminal)
| Raises.


Definition is_oracle (e : event) : bool :=
  match e with EvOracle _ => true | _ => false end.


Definition oracle_calls (tr : list event) : nat :=
  List.length (filter is_oracle tr).

(** The click attempts of a trace. *)
Definition is_click (e : event) : bool :=
  match e with EvClick _ => true | _ => false end.

Definition clicks (tr : list event) : nat := List.length (filter is_click tr).

(** The calls made from inside the [for] loop. *)
Definition in_loop (e : event) : bool :=
  match e with
  | EvQuery | EvOracle _ | EvCount _ | EvHover _ | EvWait _ | EvClick _ => true
  | EvLaunch | EvNewPage | EvGoto _ | EvClose => false
  end.

Definition click_or_wait (e : event) : bool :=
  match e with EvClick _ | EvWait _ => true | _ => false end.

(** [bool(v)] of a returned value. *)
Definition py_truthy (v : pyval) : bool :=
  match v with
  | PNone => false
  | PBool b => b
  | PDict d => negb (Json.falsy d)
  end.

(** What follows a maximal run of characters satisfying [p]: nothing, or a
    character outside it. *)
Definition stops (p : ascii -> bool) (post : string) : Prop :=
  match post with
  | EmptyString => True
  | String c _ => p c = false
  end.

(** Every character of [s] satisfies [p]. *)
Fixpoint all_chars (p : ascii -> bool) (s : string) : bool :=
  match s with
  | EmptyString => true
  | String c r => p c && all_chars p r
  end.

Record WebsiteNavigator : Type := { MAX_TRIES : nat }.

Definition __init__ : WebsiteNavigator := {| MAX_TRIES := 100 |}.

(* ================================================================= *)
(** ** The navigator *)

Module Nav.
Section Navigator.

Variable W : Type.
Variable env : Env W.

(** Code that passes the world and the trace along and may raise. *)
Definition M (A : Type) : Type := St W -> St W * res A.

Definition ret {A} (a : A) : M A := fun st => (st, Ok a).

Definition raise {A} : M A := fun st => (st, Exc).

Definition bind {A B} (m : M A) (k : A -> M B) : M B :=
  fun st =>
    match m st with
    | (st', Ok a) => k a st'
    | (st', Exc) => (st', Exc)
    end.

(** [try: m / except Exception: h] *)
Definition try_except {A} (m : M A) (h : M A) : M A :=
  fun st =>
    match m st with
    | (st', Ok a) => (st', Ok a)
    | (st', Exc) => h st'
    end.

Definition lift {A} (r : res A) : M A := fun st => (st, r).

(** A call on a collaborator, recorded in the trace. *)
Definition call {A} (e : event) (f : W -> W * res A) : M A :=
  fun st =>
    let (w', r) := f (world st) in
    ({| world := w'; trace := trace st ++ [e] |}, r).

Notation "x <- m ;; k" := (bind m (fun x => k))
  (at level 61, m at next level, right associativity).
Notation "m ;;; k" := (bind m (fun _ => k))
  (at level 61, right associativity).


(** *** [_extract_url_from_prompt] *)

Definition _extract_url_from_prompt (prompt : string) : option string :=
  match Regex.search_url prompt with
  | None => None
  | Some url =>
      if startswith url "http://" || startswith url "https://"
      then Some url else None
  end.

(** *** [_extract_clickable_elements] *)

Definition _extract_clickable_elements : M (list ElementHandle) :=
  call EvQuery (query_selector_all env "a, button").

(** *** [_process_elements] *)

(** The body of the loop: an element whose queries all return is kept
    when visible; one that raises is skipped. *)
Definition process_element (element : ElementHandle) : option Tag :=
  match tag_name element, inner_text element,
        attributes element, is_visible element with
  | Ok tg, Ok raw, Ok attributes, Ok visible =>
      let text := strip raw in
      if visible then
        Some {| tag := tg;
                content := {| text := if is_empty text then "[No Text]"
                                      else text;
                              attrs := attributes;
                              visible := visible |} |}
      else None
  | _, _, _, _ => None
  end.

Fixpoint _process_elements (elements : list ElementHandle) : list Tag :=
  match elements with
  | [] => []
  | element :: rest =>
      match process_element element with
      | Some t => t :: _process_elements rest
      | None => _process_elements rest
      end
  end.

(** *** [_create_gemini_prompt] *)

Definition quoted (s : string) : string :=
  String dq (s ++ String dq EmptyString).

Definition line (indent : nat) (s : string) : string :=
  string_of_list_ascii (repeat " "%char indent) ++ s ++ String nl EmptyString.

Definition _create_gemini_prompt (user_prompt : string) (tags : list Tag)
  : string :=
  String nl EmptyString
  ++ line 12 ("Task: " ++ user_prompt)
  ++ line 12 "Website Elements Analysis:"
  ++ line 12 ("Found " ++ of_nat (List.length tags) ++ " clickable elements.")
  ++ line 12 ""
  ++ line 12 "Please analyze these elements and provide:"
  ++ line 12 "1. The exact element to click on for completing the task"
  ++ line 12 "2. Any subsequent steps needed"
  ++ line 12 "3. Confirmation that this is the optimal path"
  ++ line 12 ("4. If you determine that the task has been fully accomplished, set "
              ++ quoted "next_steps" ++ ": [" ++ quoted "exit_now" ++ "].")
  ++ line 12 ""
  ++ line 12 ("Available elements: " ++ repr_tags env tags)
  ++ line 12 ""
  ++ line 12 "Return response as JSON:"
  ++ line 12 "{"
  ++ line 16 (quoted "recommended_action" ++ ": {")
  ++ line 20 (quoted "element_tag" ++ ": " ++ quoted "string" ++ ",")
  ++ line 20 (quoted "element_text" ++ ": " ++ quoted "string" ++ ",")
  ++ line 20 (quoted "element_attributes" ++ ": {},")
  ++ line 20 (quoted "confidence" ++ ": " ++ quoted "high|medium|low" ++ ",")
  ++ line 20 (quoted "reasoning" ++ ": " ++ quoted "string")
  ++ line 16 "},"
  ++ line 16 (quoted "next_steps" ++ ": [" ++ quoted "string" ++ "],")
  ++ line 16 (quoted "alternative_paths" ++ ": [" ++ quoted "string" ++ "]")
  ++ line 12 "}"
  ++ "        ".

(** *** [_extract_json_from_gemini_response] *)

Definition clean_json (recommended_action : string) : string :=
  strip (Regex.sub_fences recommended_action).

Definition _extract_json_from_gemini_response (recommended_action : string)
  : res json :=
  json_loads env (clean_json recommended_action).

(** *** [_click_recommended_elements] *)

(** A decoded answer without [recommended_action.element_text] or without
    [next_steps]. *)
Definition missing_required (data : json) : bool :=
  match Json.getitem data "recommended_action" with
  | Exc => true
  | Ok ra =>
      match Json.getitem ra "element_text", Json.getitem data "next_steps" with
      | Ok _, Ok _ => false
      | _, _ => true
      end
  end.

(** A value inside an f-string. *)
Definition fmt (v : json) : string :=
  match v with
  | JStr s => s
  | JNull => "None"
  | JBool true => "True"
  | JBool false => "False"
  | _ => str_other env v
  end.

(** Lines 134-138: the three values read from the decoded answer. *)
Definition read_fields (data : json) : res (json * json * json) :=
  match Json.getitem data "recommended_action" with
  | Exc => Exc
  | Ok ra =>
      match Json.getitem ra "element_text" with
      | Exc => Exc
      | Ok element_text =>
          match Json.getitem ra "element_attributes" with
          | Exc => Exc
          | Ok ea =>
              match Json.get ea "href" with
              | Exc => Exc
              | Ok href =>
                  match Json.getitem data "next_steps" with
                  | Exc => Exc
                  | Ok ns =>
                      match Json.index0 ns with
                      | Exc => Exc
                      | Ok next_steps => Ok (element_text, href, next_steps)
                      end
                  end
              end
          end
      end
  end.

Definition attr_selector (href : json) : string :=
  "a[href='" ++ fmt href ++ "']".

Definition text_selector (stripped : string) : string :=
  "a:has-text('" ++ stripped ++ "')".

Definition parent_selector (stripped : string) : string :=
  "li:has(a:has-text('" ++ stripped ++ "'))".

Definition hover_prompt (element_text : json) : string :=
  "Which element should I click after hovering over '"
  ++ fmt element_text ++ "'?".

(** Lines 170-173: the list is built before any click; [strip] raises
    when [element_text] is not a string. *)
Definition selectors (href element_text : json) : res (list string) :=
  match Json.strip element_text with
  | Exc => Exc
  | Ok stripped => Ok [attr_selector href; text_selector stripped]
  end.

(** Lines 177-184, the body of the [try]: the click, then the settling
    wait of [settle] milliseconds. *)
Definition attempt (settle : N) (selector : string) : M unit :=
  call (EvClick selector) (click env selector) ;;;
  call (EvWait settle) (wait_for_timeout env settle).

(** Lines 181-184. *)
Definition verdict (next_steps : json) : exec_outcome :=
  if Json.eq_str next_steps "exit_now" then Stop else Continue.

(** Lines 175-191: [except] goes on to the next selector. *)
Fixpoint try_selectors (settle : N) (sels : list string) (next_steps : json)
  : M exec_outcome :=
  match sels with
  | [] => ret Failed
  | selector :: rest =>
      try_except
        (attempt settle selector ;;; ret (verdict next_steps))
        (try_selectors settle rest next_steps)
  end.

(** Lines 169-191: the direct-link path. *)
Definition click_directly (settle : N) (href element_text next_steps : json)
  : M exec_outcome :=
  sels <- lift (selectors href element_text) ;;
  try_selectors settle sels next_steps.

(** Lines 145-167, the body of [if href == '#'], with the recursive call
    of line 163 as [click_again]. *)
Definition hover_then_reselect
    (click_again : string -> M exec_outcome) (element_text : json) : M flow :=
  try_except
    (stripped <- lift (Json.strip element_text) ;;
     n <- call (EvCount (parent_selector stripped))
               (locator_count env (parent_selector stripped)) ;;
     if 0 <? n then
       call (EvHover (parent_selector stripped))
            (locator_hover env (parent_selector stripped)) ;;;
       call (EvWait 1000%N) (wait_for_timeout env 1000%N) ;;;
       new_elements <- _extract_clickable_elements ;;
       match new_elements with
       | [] => ret FallThrough
       | _ :: _ =>
           let processed_tags := _process_elements new_elements in
           let llm_prompt :=
             _create_gemini_prompt (hover_prompt element_text) processed_tags in
           response <- call (EvOracle llm_prompt)
                            (gemini_response env llm_prompt) ;;
           o <- click_again response ;;
           ret (Return_ o)
       end
     else ret FallThrough)
    (ret (Return_ Failed)).

(** [depth] is the number of calls the interpreter still allows, this one
    included; a call beyond it raises [RecursionError]. *)
Fixpoint _click_recommended_elements (depth : nat) (recommended_action : string)
  : M exec_outcome :=
  match depth with
  | O => raise
  | S depth' =>
      data <- lift (_extract_json_from_gemini_response recommended_action) ;;
      try_except
        (fields <- lift (read_fields data) ;;
         let '(element_text, href, next_steps) := fields in
         fl <- (if Json.eq_str href "#"
                then hover_then_reselect
                       (_click_recommended_elements depth') element_text
                else ret FallThrough) ;;
         match fl with
         | Return_ o => ret o
         | FallThrough => click_directly 5000 href element_text next_steps
         end)
        (ret Failed)
  end.

(** *** [visit_website] *)

Inductive step : Type :=
| Again
| Exit (t : terminal).

(** Lines 40-64: one pass of the [for] loop. *)
Definition iteration (prompt : string) (st : St W) : St W * step :=
  match _extract_clickable_elements st with
  | (st1, Exc) => (st1, Exit PageError)
  | (st1, Ok elements) =>
      match elements with
      | [] => (st1, Exit NoElements)
      | _ :: _ =>
          let processed_tags := _process_elements elements in
          let p := _create_gemini_prompt prompt processed_tags in
          match (response <- call (EvOracle p) (gemini_response env p) ;;
                 _click_recommended_elements (S (recursion_limit env)) response)
                  st1 with
          | (st2, Exc) => (st2, Exit DecisionError)
          | (st2, Ok check_if_clicked) =>
              if truthy check_if_clicked then (st2, Again)
              else (st2, Exit match check_if_clicked with
                              | Stop => Completed
                              | _ => ActionFailed
                              end)
          end
      end
  end.

(** Lines 39-64: [for _ in range(tries)]. *)
Fixpoint navigation_loop (tries : nat) (prompt : string) (st : St W)
  : St W * terminal :=
  match tries with
  | O => (st, Exhausted)
  | S n =>
      match iteration prompt st with
      | (st', Again) => navigation_loop n prompt st'
      | (st', Exit t) => (st', t)
      end
  end.

(** [tries] passes of the loop in a row, each ending in [continue]. *)
Inductive continues (prompt : string) : nat -> St W -> St W -> Prop :=
| continues_O : forall st, continues prompt 0 st st
| continues_S : forall n st st' st'',
    iteration prompt st = (st', Again) ->
    continues prompt n st' st'' ->
    continues prompt (S n) st st''.

(** Lines 30-64: the [try] block once the browser is launched. *)
Definition session (self : WebsiteNavigator) (prompt : string) (st : St W)
  : St W * terminal :=
  match call EvNewPage (new_page env) st with
  | (st1, Exc) => (st1, PageError)
  | (st1, Ok _) =>
      match _extract_url_from_prompt prompt with
      | None => (st1, InputError)
      | Some url =>
          match call (EvGoto url) (goto env url) st1 with
          | (st2, Exc) => (st2, PageError)
          | (st2, Ok _) => navigation_loop (MAX_TRIES self) prompt st2
          end
      end
  end.

(** Lines 26-72.  [browser] stays [None] when the launch raises, and the
    [finally] block closes it otherwise. *)
Definition visit_website (self : WebsiteNavigator) (prompt : string)
    (st : St W) : St W * outcome :=
  match call EvLaunch (launch env) st with
  | (st0, Exc) => (st0, Returns PageError)
  | (st0, Ok _) =>
      let (st1, t) := session self prompt st0 in
      match call EvClose (close env) st1 with
      | (st2, Ok _) => (st2, Returns t)
      | (st2, Exc) => (st2, Raises)
      end
  end.

(** *** The executor of [sample.py] (lines 133-174): no hover block, and
    a missing [href] is refused. *)
Definition sample_click_recommended_elements (recommended_action : string)
  : M exec_outcome :=
  data <- lift (_extract_json_from_gemini_response recommended_action) ;;
  try_except
    (fields <- lift (read_fields data) ;;
     let '(element_text, href, next_steps) := fields in
     if Json.falsy href then ret Failed
     else click_directly 10000 href element_text next_steps)
    (ret Failed).

(** *** [main] (lines 228-237) *)

Definition main_prompt : string :=
  "From the General Information Section, download the official PDF list of holidays for Lucknow in the year 2025 from https://itat.gov.in/".

(** What [main] prints after its heading: the result of the session when
    it is truthy.  An exception of the session is caught and logged. *)
Definition main (st : St W) : St W * option pyval :=
  match visit_website __init__ main_prompt st with
  | (st', Returns t) =>
      (st', if py_truthy (return_value t) then Some (return_value t)
            else None)
  | (st', Raises) => (st', None)
  end.

(** A computation whose calls all satisfy [P], added at the end of the
    trace. *)
Definition emits (P : event -> bool) {A} (m : M A) : Prop :=
  forall st, exists evs : list event,
    trace (fst (m st)) = (trace st ++ evs)%list /\ forallb P evs = true.

(** A computation that attempts at most [n] clicks. *)
Definition clicks_within (n : nat) {A} (m : M A) : Prop :=
  forall st, clicks (trace (fst (m st))) <= clicks (trace st) + n.

End Navigator.
End Nav.

(* ================================================================= *)
(** ** Scripted worlds *)

(** Concrete collaborators to run the navigator on: a site whose pages
    always show the same elements, and a model that gives the answers of a
    script one after the other.  The JSON and Python renderings below are
    those of texts without quotes, backslashes or control characters. *)
Module Fixture.

Fixpoint join (sep : string) (l : list string) : string :=
  match l with
  | [] => ""
  | [x] => x
  | x :: r => x ++ sep ++ join sep r
  end.

Definition dquoted (s : string) : string :=
  String dq (s ++ String dq EmptyString).

Definition squoted (s : string) : string := "'" ++ s ++ "'".

(** [json.dumps] *)
Fixpoint dumps (j : json) : string :=
  match j with
  | JNull => "null"
  | JBool true => "true"
  | JBool false => "false"
  | JNum r => r
  | JStr s => dquoted s
  | JArr items => "[" ++ join ", " (map dumps items) ++ "]"
  | JObj fields =>
      "{" ++ join ", " (map (fun kv => dquoted (fst kv) ++ ": " ++ dumps (snd kv))
                            fields) ++ "}"
  end.

(** [str] and [repr] of a decoded value *)
Fixpoint py_repr (j : json) : string :=
  match j with
  | JNull => "None"
  | JBool true => "True"
  | JBool false => "False"
  | JNum r => r
  | JStr s => squoted s
  | JArr items => "[" ++ join ", " (map py_repr items) ++ "]"
  | JObj fields =>
      "{" ++ join ", " (map (fun kv => squoted (fst kv) ++ ": " ++ py_repr (snd kv))
                            fields) ++ "}"
  end.

Definition repr_tag (t : Tag) : string :=
  "{'tag': " ++ squoted (tag t) ++ ", 'content': {'text': "
  ++ squoted (text (content t)) ++ ", 'attributes': {"
  ++ join ", " (map (fun kv => squoted (fst kv) ++ ": " ++ squoted (snd kv))
                    (attrs (content t)))
  ++ "}, 'visible': " ++ (if visible (content t) then "True" else "False")
  ++ "}}".

Definition repr_tag_list (l : list Tag) : string :=
  "[" ++ join ", " (map repr_tag l) ++ "]".

(** [json.loads] on the texts of [known]: their [dumps] decode to them,
    anything else is refused. *)
Fixpoint loads (known : list json) (s : string) : res json :=
  match known with
  | [] => Exc
  | j :: r => if String.eqb s (dumps j) then Ok j else loads r s
  end.

Record Site : Type := {
  elements : list ElementHandle;   (* the result of every query *)
  clickable : list string;         (* the selectors a click succeeds on *)
  menu_count : nat;                (* the count of every parent locator *)
  hover_ok : bool;
  known : list json                (* the answers the decoder accepts *)
}.

Definition fine {A} (w : A) : A * res unit := (w, Ok tt).

(** The state of the world is the rest of the model's script; the model
    raises when it has run out of answers. *)
Definition env_of (site : Site) (limit : nat) : Env (list string) := {|
  launch := fine;
  new_page := fine;
  goto := fun _ => fine;
  query_selector_all := fun _ w => (w, Ok (elements site));
  gemini_response := fun _ w =>
    match w with
    | [] => ([], Exc)
    | answer :: rest => (rest, Ok answer)
    end;
  locator_count := fun _ w => (w, Ok (menu_count site));
  locator_hover := fun _ w => (w, if hover_ok site then Ok tt else Exc);
  wait_for_timeout := fun _ => fine;
  click := fun selector w =>
    (w, if existsb (String.eqb selector) (clickable site) then Ok tt else Exc);
  close := fine;
  json_loads := loads (known site);
  str_other := py_repr;
  repr_tags := repr_tag_list;
  recursion_limit := limit
|}.

Definition start (script : list string) : St (list string) :=
  {| world := script; trace := [] |}.

(** A link as the page shows it. *)
Definition link (label href : string) (shown : bool) : ElementHandle :=
  {| tag_name := Ok "a";
     inner_text := Ok label;
     attributes := Ok [("href", href)];
     is_visible := Ok shown |}.

(** An answer of the model that recommends the element [label]. *)
Definition recommend (label : string) (attributes : list (string * json))
    (next : list string) : json :=
  JObj [("recommended_action",
         JObj [("element_tag", JStr "a");
               ("element_text", JStr label);
               ("element_attributes", JObj attributes);
               ("confidence", JStr "high");
               ("reasoning", JStr "matches the task")]);
        ("next_steps", JArr (map JStr next));
        ("alternative_paths", JArr [])].

Definition download : json :=
  recommend "Download" [("href", JStr "/file.pdf")] ["exit_now"].

Definition docs : json :=
  recommend "Docs" [("href", JStr "/docs")] ["read the page"].

Definition untargeted : json := recommend "Docs" [] ["read the page"].

Definition services : json :=
  recommend "Services" [("href", JStr "#")] ["pick an entry"].

Definition pdf : json :=
  recommend "PDF" [("href", JStr "/services/pdf")] ["read the page"].

Definition answers : list json :=
  [download; docs; untargeted; services; pdf; JObj []].

(** A page with three links, all shown or all hidden. *)
Definition page (shown : bool) (clickable : list string) (menu_count : nat)
    (hover_ok : bool) : Site :=
  {| elements := [link "Docs" "/docs" shown;
                  link "Download" "/file.pdf" shown;
                  link "Services" "#" shown];
     clickable := clickable;
     menu_count := menu_count;
     hover_ok := hover_ok;
     known := answers |}.

(** The page with nothing to click, no menu and a working hover. *)
Definition still : Env (list string) := env_of (page true [] 0 true) 0.

(** The page on which exactly the selectors [clickable] can be clicked. *)
Definition clicking (clickable : list string) : Env (list string) :=
  env_of (page true clickable 0 true) 0.

(** A page without any anchor or button. *)
Definition blank : Env (list string) :=
  env_of {| elements := []; clickable := []; menu_count := 0;
            hover_ok := true; known := answers |} 0.

(** The same page with every link hidden. *)
Definition hidden : Env (list string) :=
  env_of (page false ["a[href='/docs']"] 0 true) 0.

(** A page whose list item opens a menu on hover, with room for [limit]
    nested executor calls. *)
Definition menu (limit : nat) : Env (list string) :=
  env_of (page true ["a[href='/services/pdf']"] 1 true) limit.

(** A page whose list item cannot be hovered. *)
Definition stuck_menu : Env (list string) :=
  env_of (page true ["a[href='#']"] 1 false) 0.

(** The model opens the menu [d] times, then picks the entry. *)
Definition script (d : nat) : list string :=
  repeat (dumps services) d ++ [dumps pdf].

Definition once : WebsiteNavigator := {| MAX_TRIES := 1 |}.

(** What one opening of the menu adds to the trace. *)
Definition hover_events (limit : nat) : list event :=
  [EvCount "li:has(a:has-text('Services'))";
   EvHover "li:has(a:has-text('Services'))";
   EvWait 1000;
   EvQuery;
   EvOracle (Nav._create_gemini_prompt (menu limit)
               (Nav.hover_prompt (menu limit) (JStr "Services"))
               (Nav._process_elements
                  (elements (page true [] 1 true))))].

Definition goal : string := "Go to https://example.com/ and download the file".

Definition site_url : string := "https://example.com/".

End Fixture.

(** Further answers and worlds. *)
Module Fixture2.

(** The answer [Fixture.docs] without the fields the executor does not
    read, and with a second entry in [next_steps]. *)
Definition terse : json :=
  JObj [("recommended_action",
         JObj [("element_text", JStr "Docs");
               ("element_attributes", JObj [("href", JStr "/docs")])]);
        ("next_steps", JArr [JStr "read the page"; JStr "exit_now"])].

(** An answer whose [next_steps] is a string. *)
Definition stringly : json :=
  JObj [("recommended_action",
         JObj [("element_text", JStr "Docs");
               ("element_attributes", JObj [("href", JStr "/docs")])]);
        ("next_steps", JStr "exit_now")].

(** An answer whose [element_text] is [null]. *)
Definition untexted : json :=
  JObj [("recommended_action",
         JObj [("element_text", JNull);
               ("element_attributes", JObj [("href", JStr "/docs")])]);
        ("next_steps", JArr [JStr "read the page"])].

(** The page of [Fixture.clicking] with a decoder that knows these
    answers too. *)
Definition clicking (clickable : list string) : Env (list string) :=
  Fixture.env_of
    {| Fixture.elements := Fixture.elements (Fixture.page true [] 0 true);
       Fixture.clickable := clickable;
       Fixture.menu_count := 0;
       Fixture.hover_ok := true;
       Fixture.known := terse :: stringly :: untexted :: Fixture.answers |}
    0.

(** An element whose visibility cannot be read. *)
Definition broken : ElementHandle :=
  {| tag_name := Ok "a";
     inner_text := Ok "Docs";
     attributes := Ok [("href", "/docs")];
     is_visible := Exc |}.

(** A world in which no browser can be launched. *)
Definition unlaunchable : Env (list string) :=
  {| launch := fun w => (w, Exc);
     new_page := new_page Fixture.still;
     goto := goto Fixture.still;
     query_selector_all := query_selector_all Fixture.still;
     gemini_response := gemini_response Fixture.still;
     locator_count := locator_count Fixture.still;
     locator_hover := locator_hover Fixture.still;
     wait_for_timeout := wait_for_timeout Fixture.still;
     click := click Fixture.still;
     close := close Fixture.still;
     json_loads := json_loads Fixture.still;
     str_other := str_other Fixture.still;
     repr_tags := repr_tags Fixture.still;
     recursion_limit := 0 |}.

(** The page of [Fixture.clicking] on which every wait raises. *)
Definition restless (clickable : list string) : Env (list string) :=
  {| launch := launch (Fixture.clicking clickable);
     new_page := new_page (Fixture.clicking clickable);
     goto := goto (Fixture.clicking clickable);
     query_selector_all := query_selector_all (Fixture.clicking clickable);
     gemini_response := gemini_response (Fixture.clicking clickable);
     locator_count := locator_count (Fixture.clicking clickable);
     locator_hover := locator_hover (Fixture.clicking clickable);
     wait_for_timeout := fun _ w => (w, Exc);
     click := click (Fixture.clicking clickable);
     close := close (Fixture.clicking clickable);
     json_loads := json_loads (Fixture.clicking clickable);
     str_other := str_other (Fixture.clicking clickable);
     repr_tags := repr_tags (Fixture.clicking clickable);
     recursion_limit := 0 |}.

End Fixture2.

(** Code-fence wrapping of an answer: an opening delimiter line, the text,
    a closing delimiter line. *)
Definition wrap (opening t : string) : string :=
  opening ++ String nl (t ++ String nl Regex.fence).

(* ================================================================= *)
(** ** Facts about strings and the fence pattern *)

Module StrFacts.

Lemma append_empty_r (s : string) : s ++ "" = s.
Proof. induction s as [|c s IH]; simpl; [reflexivity | now rewrite IH]. Qed.

Lemma append_assoc (a b c : string) : (a ++ b) ++ c = a ++ (b ++ c).
Proof. induction a as [|x a IH]; simpl; [reflexivity | now rewrite IH]. Qed.

Lemma prefix_length (p s : string) :
  String.prefix p s = true -> String.length p <= String.length s.
Proof.
  revert p; induction s as [|c s IH]; intros [|x p]; simpl; try lia;
    try discriminate.
  destruct (ascii_dec x c); [intros H; apply IH in H; lia | discriminate].
Qed.

(** A pattern without a newline cannot match across one. *)
Lemma prefix_before_newline (p a b : string) :
  no_newline p = true ->
  String.prefix p (a ++ String nl b) = String.prefix p a.
Proof.
  revert p; induction a as [|c a IH]; intros [|x p] Hp; simpl; try reflexivity.
  - simpl in Hp. apply andb_prop in Hp as [Hx _].
    destruct (ascii_dec x nl) as [->|]; [|reflexivity].
    now rewrite Ascii.eqb_refl in Hx.
  - simpl in Hp. apply andb_prop in Hp as [_ Hp].
    destruct (ascii_dec x c); [now apply IH | reflexivity].
Qed.

Lemma drop_app (n : nat) (a b : string) :
  n <= String.length a -> drop n (a ++ b) = drop n a ++ b.
Proof.
  revert a; induction n as [|n IH]; intros [|c a] H; simpl in *;
    try reflexivity; try lia.
  apply IH; lia.
Qed.

Lemma at_eol_before_newline (a b : string) :
  Regex.at_eol (a ++ String nl b) = Regex.at_eol a.
Proof. destruct a; reflexivity. Qed.

(** The substitution works line by line. *)
Lemma sub_fences_lines (a b : string) : forall bol skip,
  skip <= String.length a ->
  Regex.sub_fences_from bol skip (a ++ String nl b)
  = Regex.sub_fences_from bol skip a
    ++ String nl (Regex.sub_fences_from true 0 b).
Proof.
  induction a as [|c a IH]; intros bol skip Hs.
  - simpl in Hs. assert (skip = 0) as -> by lia.
    cbn [append Regex.sub_fences_from].
    replace (String.prefix Regex.fence_json (String nl b)) with false
      by reflexivity.
    replace (String.prefix Regex.fence (String nl b)) with false
      by reflexivity.
    rewrite andb_false_r. cbn [andb]. now rewrite Ascii.eqb_refl.
  - change (String c a ++ String nl b) with (String c (a ++ String nl b)).
    cbn [Regex.sub_fences_from].
    destruct skip as [|k]; [|apply IH; simpl in Hs; lia].
    change (String c (a ++ String nl b)) with (String c a ++ String nl b).
    rewrite !prefix_before_newline by reflexivity.
    destruct (bol && String.prefix Regex.fence_json (String c a)) eqn:Hj.
    + apply andb_prop in Hj as [_ Hj].
      apply prefix_length in Hj. simpl in Hj. apply IH. lia.
    + destruct (String.prefix Regex.fence (String c a)) eqn:Hf; cbn [andb].
      * pose proof (prefix_length _ _ Hf) as Hl. simpl in Hl.
        rewrite drop_app by (simpl; lia).
        rewrite at_eol_before_newline.
        destruct (Regex.at_eol (drop 3 (String c a))).
        -- apply IH. lia.
        -- simpl. f_equal. apply IH. lia.
      * simpl. f_equal. apply IH. lia.
Qed.

Lemma rstrip_all_space (s : string) : all_space s = true -> rstrip s = "".
Proof.
  induction s as [|c s IH]; simpl; [reflexivity|].
  intros H. apply andb_prop in H as [Hc Hs]. now rewrite IH, Hc.
Qed.

Lemma rstrip_app_space (s ws : string) :
  all_space ws = true -> rstrip (s ++ ws) = rstrip s.
Proof.
  intros Hws. induction s as [|c s IH]; simpl.
  - now apply rstrip_all_space.
  - now rewrite IH.
Qed.

Lemma lstrip_all_space (s : string) : all_space s = true -> lstrip s = "".
Proof.
  induction s as [|c s IH]; simpl; [reflexivity|].
  intros H. apply andb_prop in H as [Hc Hs]. now rewrite Hc, IH.
Qed.

Lemma lstrip_app (s ws : string) :
  lstrip (s ++ ws) = if all_space s then lstrip ws else lstrip s ++ ws.
Proof.
  induction s as [|c s IH]; simpl; [reflexivity|].
  destruct (is_space c); simpl; [exact IH | reflexivity].
Qed.

(** Whitespace around a text does not survive [strip]. *)
Lemma strip_app_space (s ws : string) :
  all_space ws = true -> strip (s ++ ws) = strip s.
Proof.
  intros Hws. unfold strip. rewrite lstrip_app.
  destruct (all_space s) eqn:Hs.
  - now rewrite (lstrip_all_space _ Hws), (lstrip_all_space _ Hs).
  - now apply rstrip_app_space.
Qed.

Lemma strip_newline_l (s : string) : strip (String nl s) = strip s.
Proof. reflexivity. Qed.

End StrFacts.

(* ================================================================= *)
(** ** The response interpreter and code fences *)

Section Interpreter.

Variable W : Type.
Variable env : Env W.

Lemma clean_json_wrap (opening t : string) :
  Regex.sub_fences opening = "" ->
  Nav.clean_json (wrap opening t) = Nav.clean_json t.
Proof.
  intros Hopen. unfold Nav.clean_json, wrap, Regex.sub_fences in *.
  rewrite StrFacts.sub_fences_lines by lia.
  rewrite StrFacts.sub_fences_lines by lia.
  rewrite Hopen. cbn [append].
  rewrite StrFacts.strip_newline_l.
  change (Regex.sub_fences_from true 0 Regex.fence) with "".
  now apply StrFacts.strip_app_space.
Qed.

(** C6, amended: for every raw oracle output [t], parsing [t] wrapped in
    a leading and a trailing code-fence delimiter line, the opening one
    either tagged [json] or bare, yields the same result as parsing [t]
    unwrapped, whatever the decoder does with the cleaned text. *)
Theorem fenced_answer_parses_alike (t : string) :
  Nav._extract_json_from_gemini_response env (wrap Regex.fence_json t)
  = Nav._extract_json_from_gemini_response env t
  /\ Nav._extract_json_from_gemini_response env (wrap Regex.fence t)
     = Nav._extract_json_from_gemini_response env t.
Proof.
  unfold Nav._extract_json_from_gemini_response.
  split; rewrite clean_json_wrap; reflexivity.
Qed.

End Interpreter.

(** C6 as stated fails for a fence with another language tag: the opening
    line [```python] is not removed, the cleaned text keeps it, and the
    decoder refuses what it accepts unwrapped. *)
Lemma other_language_tag_is_kept :
  Nav.clean_json (wrap "```python" "{}") = "```python" ++ String nl "{}"
  /\ Nav.clean_json "{}" = "{}"
  /\ Nav._extract_json_from_gemini_response Fixture.still
       (wrap "```python" "{}") = Exc
  /\ Nav._extract_json_from_gemini_response Fixture.still "{}" = Ok (JObj [])
  /\ Nav._extract_json_from_gemini_response Fixture.still
       (wrap "```python" "{}")
     <> Nav._extract_json_from_gemini_response Fixture.still "{}".
Proof.
  repeat split; try (vm_compute; reflexivity).
  vm_compute. discriminate.
Qed.

(* ================================================================= *)
(** ** The browser is released on every path *)

Section Release.

Variable W : Type.
Variable env : Env W.
















Lemma no_browser_no_close self prompt st w0 :
  launch env (world st) = (w0, Exc) ->
  Nav.visit_website env self prompt st
  = ({| world := w0; trace := trace st ++ [EvLaunch] |}, Returns PageError).
Proof.
  intros Hl. unfold Nav.visit_website, Nav.call. now rewrite Hl.
Qed.


End Release.

(* ================================================================= *)
(** ** The navigation loop *)

Section Loop.

Variable W : Type.
Variable env : Env W.

Lemma no_scheme_no_match (s : string) :
  contains "http://" s = false -> contains "https://" s = false ->
  Regex.search_url s = None.
Proof.
  induction s as [|c s IH]; intros H1 H2.
  - reflexivity.
  - cbn [contains] in H1, H2.
    apply orb_false_elim in H1 as [P1 H1].
    apply orb_false_elim in H2 as [P2 H2].
    cbn [Regex.search_url]. unfold Regex.match_url_at.
    rewrite P1, P2. now apply IH.
Qed.

(** An instruction that mentions neither scheme has no URL. *)
Lemma no_scheme_no_url (prompt : string) :
  contains "http://" prompt = false -> contains "https://" prompt = false ->
  Nav._extract_url_from_prompt prompt = None.
Proof.
  intros H1 H2. unfold Nav._extract_url_from_prompt.
  now rewrite no_scheme_no_match.
Qed.

Lemma oracle_calls_app (a b : list event) :
  oracle_calls (a ++ b) = oracle_calls a + oracle_calls b.
Proof. unfold oracle_calls. now rewrite filter_app, length_app. Qed.

Lemma oracle_calls_cons (e : event) (l : list event) :
  oracle_calls (e :: l) = (if is_oracle e then 1 else 0) + oracle_calls l.
Proof. unfold oracle_calls. simpl. now destruct (is_oracle e). Qed.

(** A call whose browser, page and navigation all succeed runs the loop
    and closes the browser. *)
Lemma visit_website_loop self prompt st w0 u0 w1 u1 url w2 u2 :
  launch env (world st) = (w0, Ok u0) ->
  new_page env w0 = (w1, Ok u1) ->
  Nav._extract_url_from_prompt prompt = Some url ->
  goto env url w1 = (w2, Ok u2) ->
  Nav.visit_website env self prompt st
  = let (st3, t) :=
      Nav.navigation_loop env (MAX_TRIES self) prompt
        {| world := w2;
           trace := trace st ++ [EvLaunch; EvNewPage; EvGoto url] |} in
    ({| world := fst (close env (world st3));
        trace := trace st3 ++ [EvClose] |},
     match snd (close env (world st3)) with
     | Ok _ => Returns t
     | Exc => Raises
     end).
Proof.
  intros Hl Hn Hu Hg. unfold Nav.visit_website, Nav.session.
  unfold Nav.call at 1. rewrite Hl. unfold Nav.call at 1. cbn [world trace].
  rewrite Hn, Hu. unfold Nav.call at 1. cbn [world trace]. rewrite Hg.
  repeat rewrite <- app_assoc. cbn [app].
  destruct (Nav.navigation_loop env (MAX_TRIES self) prompt _) as [st3 t].
  unfold Nav.call. destruct (close env (world st3)) as [w4 [u4|]];
    reflexivity.
Qed.

(** C5, amended: for every instruction in which no URL is found, the
    session aborts with the input error, reported as [None], after the
    browser and its page have been acquired and before any navigation,
    element query or oracle call; the browser is then closed. *)
Theorem no_url_aborts_after_launch self prompt st w0 u0 w1 u1 :
  Nav._extract_url_from_prompt prompt = None ->
  launch env (world st) = (w0, Ok u0) ->
  new_page env w0 = (w1, Ok u1) ->
  Nav.session env self prompt
    {| world := w0; trace := trace st ++ [EvLaunch] |}
  = ({| world := w1; trace := trace st ++ [EvLaunch; EvNewPage] |},
     InputError)
  /\ Nav.visit_website env self prompt st
     = ({| world := fst (close env w1);
           trace := trace st ++ [EvLaunch; EvNewPage; EvClose] |},
        match snd (close env w1) with
        | Ok _ => Returns InputError
        | Exc => Raises
        end)
  /\ return_value InputError = PNone.
Proof.
  intros Hu Hl Hn.
  assert (Nav.session env self prompt
            {| world := w0; trace := trace st ++ [EvLaunch] |}
          = ({| world := w1; trace := trace st ++ [EvLaunch; EvNewPage] |},
             InputError)) as Hs.
  { unfold Nav.session, Nav.call. simpl. rewrite Hn, Hu.
    now rewrite <- app_assoc. }
  split; [exact Hs|]. split; [|reflexivity].
  unfold Nav.visit_website. unfold Nav.call at 1. rewrite Hl, Hs.
  unfold Nav.call. simpl. destruct (close env w1) as [w2 [u2|]]; simpl;
    now rewrite <- app_assoc.
Qed.

(** C2, amended: for every page state in which the query for anchors and
    buttons, before the visibility filter, returns no element, the loop
    terminates in [NoElements] reporting [None], and that pass makes the
    query and no other call, so the oracle is not invoked. *)
Theorem empty_query_ends_in_NoElements tries prompt st w1 :
  query_selector_all env "a, button" (world st) = (w1, Ok []) ->
  Nav.navigation_loop env (S tries) prompt st
  = ({| world := w1; trace := trace st ++ [EvQuery] |}, NoElements)
  /\ return_value NoElements = PNone.
Proof.
  intros Hq. split; [|reflexivity].
  cbn [Nav.navigation_loop].
  unfold Nav.iteration, Nav._extract_clickable_elements, Nav.call.
  now rewrite Hq.
Qed.

Lemma continues_exhaust prompt tries st st' :
  Nav.continues env prompt tries st st' ->
  Nav.navigation_loop env tries prompt st = (st', Exhausted).
Proof.
  induction 1 as [st|n st st1 st2 Hi _ IH]; simpl; [reflexivity|].
  now rewrite Hi.
Qed.

(** C8, amended: the iteration bound defaults to 100, and for every
    session in which every executed action returns continue until the
    bound is exhausted, the loop terminates in [Exhausted] reporting
    [None], the null result, which is distinct from the [False] that
    [Completed] reports; in particular with budget 1 and a first action
    returning continue, the outcome is [Exhausted], not [Completed]. *)
Theorem exhausted_budget_reports_none prompt tries st st' :
  Nav.continues env prompt tries st st' ->
  MAX_TRIES __init__ = 100
  /\ Nav.navigation_loop env tries prompt st = (st', Exhausted)
  /\ (forall s s', Nav.iteration env prompt s = (s', Nav.Again) ->
        Nav.navigation_loop env 1 prompt s = (s', Exhausted))
  /\ return_value Exhausted = PNone
  /\ return_value Exhausted <> return_value Completed.
Proof.
  intros Hc. split; [reflexivity|]. split; [now apply continues_exhaust|].
  split; [|split; [reflexivity | discriminate]].
  intros s s' Hi. simpl. now rewrite Hi.
Qed.

End Loop.

(* ================================================================= *)
(** ** The action executor *)

Section Executor.

Variable W : Type.
Variable env : Env W.

Lemma missing_required_raises (data : json) :
  Nav.missing_required data = true -> Nav.read_fields data = Exc.
Proof.
  unfold Nav.missing_required, Nav.read_fields.
  destruct (Json.getitem data "recommended_action") as [ra|]; [|reflexivity].
  destruct (Json.getitem ra "element_text") as [et|]; [|reflexivity].
  destruct (Json.getitem data "next_steps") as [ns|]; [discriminate|].
  intros _.
  destruct (Json.getitem ra "element_attributes") as [ea|]; [|reflexivity].
  destruct (Json.get ea "href"); reflexivity.
Qed.

(** The executor once the answer is decoded and its fields are read. *)
Lemma click_decoded depth raw data element_text href next_steps st :
  Nav._extract_json_from_gemini_response env raw = Ok data ->
  Nav.read_fields data = Ok (element_text, href, next_steps) ->
  Nav._click_recommended_elements env (S depth) raw st
  = Nav.try_except
      (Nav.bind
         (if Json.eq_str href "#"
          then Nav.hover_then_reselect env
                 (Nav._click_recommended_elements env depth) element_text
          else Nav.ret FallThrough)
         (fun fl =>
            match fl with
            | Return_ o => Nav.ret o
            | FallThrough =>
                Nav.click_directly env 5000 href element_text next_steps
            end))
      (Nav.ret Failed) st.
Proof.
  intros Hd Hf. cbn [Nav._click_recommended_elements].
  unfold Nav.bind at 1. unfold Nav.lift at 1. rewrite Hd.
  unfold Nav.try_except. unfold Nav.bind at 1. unfold Nav.lift at 1.
  rewrite Hf. reflexivity.
Qed.

Lemma click_undecodable depth raw st :
  Nav._extract_json_from_gemini_response env raw = Exc ->
  Nav._click_recommended_elements env (S depth) raw st = (st, Exc).
Proof.
  intros Hd. cbn [Nav._click_recommended_elements].
  unfold Nav.bind, Nav.lift. now rewrite Hd.
Qed.

Lemma click_unreadable depth raw data st :
  Nav._extract_json_from_gemini_response env raw = Ok data ->
  Nav.read_fields data = Exc ->
  Nav._click_recommended_elements env (S depth) raw st = (st, Ok Failed).
Proof.
  intros Hd Hf. cbn [Nav._click_recommended_elements].
  unfold Nav.bind at 1. unfold Nav.lift at 1. rewrite Hd.
  unfold Nav.try_except, Nav.bind, Nav.lift. now rewrite Hf.
Qed.

(** The direct-link path never raises. *)
Lemma click_directly_selectors settle href text next_steps st :
  Nav.click_directly env settle href (JStr text) next_steps st
  = match Nav.attempt env settle (Nav.attr_selector env href) st with
    | (st1, Ok _) => (st1, Ok (Nav.verdict next_steps))
    | (st1, Exc) =>
        match Nav.attempt env settle (Nav.text_selector (strip text)) st1 with
        | (st2, Ok _) => (st2, Ok (Nav.verdict next_steps))
        | (st2, Exc) => (st2, Ok Failed)
        end
    end.
Proof.
  unfold Nav.click_directly, Nav.selectors. cbn [Json.strip].
  unfold Nav.bind at 1. unfold Nav.lift. cbn [Nav.try_selectors].
  unfold Nav.try_except, Nav.bind, Nav.ret.
  destruct (Nav.attempt env settle (Nav.attr_selector env href) st)
    as [st1 [u|]]; [reflexivity|].
  destruct (Nav.attempt env settle (Nav.text_selector (strip text)) st1)
    as [st2 [u|]]; reflexivity.
Qed.

Lemma click_directly_total settle href text next_steps st :
  Nav.try_except (Nav.click_directly env settle href (JStr text) next_steps)
    (Nav.ret Failed) st
  = Nav.click_directly env settle href (JStr text) next_steps st.
Proof.
  unfold Nav.try_except. rewrite click_directly_selectors.
  destruct (Nav.attempt env settle (Nav.attr_selector env href) st)
    as [s1 [u|]]; [reflexivity|].
  destruct (Nav.attempt env settle (Nav.text_selector (strip text)) s1)
    as [s2 [u|]]; reflexivity.
Qed.

Lemma attempt_starts_with_click settle selector st :
  exists tr : list event,
    trace (fst (Nav.attempt env settle selector st))
    = (trace st ++ EvClick selector :: tr)%list.
Proof.
  unfold Nav.attempt, Nav.bind, Nav.call.
  destruct (click env selector (world st)) as [w1 [u|]]; cbn.
  - destruct (wait_for_timeout env settle w1) as [w2 r]; cbn.
    exists [EvWait settle]. destruct r; cbn; now rewrite <- app_assoc.
  - now exists [].
Qed.

(** One pass of the loop once the page shows elements and the oracle
    answers. *)
Lemma iteration_decided prompt st w1 e es w2 raw :
  query_selector_all env "a, button" (world st) = (w1, Ok (e :: es)) ->
  gemini_response env
    (Nav._create_gemini_prompt env prompt (Nav._process_elements (e :: es)))
    w1 = (w2, Ok raw) ->
  forall st' r,
    Nav._click_recommended_elements env (S (recursion_limit env)) raw
      {| world := w2;
         trace := trace st
                  ++ [EvQuery;
                      EvOracle (Nav._create_gemini_prompt env prompt
                                  (Nav._process_elements (e :: es)))] |}
    = (st', r) ->
    Nav.iteration env prompt st
    = match r with
      | Exc => (st', Nav.Exit DecisionError)
      | Ok o => if truthy o then (st', Nav.Again)
                else (st', Nav.Exit match o with
                                    | Stop => Completed
                                    | _ => ActionFailed
                                    end)
      end.
Proof.
  intros Hq Ho st' r Hr.
  unfold Nav.iteration, Nav._extract_clickable_elements.
  unfold Nav.call at 1. rewrite Hq.
  unfold Nav.bind at 1. unfold Nav.call at 1. cbn [world trace].
  rewrite Ho. rewrite <- app_assoc. cbn [app]. rewrite Hr.
  reflexivity.
Qed.

(** The hover block when the parent is found, the hover and the wait
    succeed, the menu shows elements and the oracle answers: the executor
    asks the oracle again and calls itself on the answer. *)
Lemma hover_path_recurses depth raw data text next_steps st
      n w1 w2 u2 w3 u3 w4 e es w5 response :
  Nav._extract_json_from_gemini_response env raw = Ok data ->
  Nav.read_fields data = Ok (JStr text, JStr "#", next_steps) ->
  locator_count env (Nav.parent_selector (strip text)) (world st)
  = (w1, Ok (S n)) ->
  locator_hover env (Nav.parent_selector (strip text)) w1 = (w2, Ok u2) ->
  wait_for_timeout env 1000 w2 = (w3, Ok u3) ->
  query_selector_all env "a, button" w3 = (w4, Ok (e :: es)) ->
  gemini_response env
    (Nav._create_gemini_prompt env (Nav.hover_prompt env (JStr text))
       (Nav._process_elements (e :: es))) w4 = (w5, Ok response) ->
  Nav._click_recommended_elements env (S depth) raw st
  = match Nav._click_recommended_elements env depth response
            {| world := w5;
               trace := trace st
                        ++ [EvCount (Nav.parent_selector (strip text));
                            EvHover (Nav.parent_selector (strip text));
                            EvWait 1000;
                            EvQuery;
                            EvOracle
                              (Nav._create_gemini_prompt env
                                 (Nav.hover_prompt env (JStr text))
                                 (Nav._process_elements (e :: es)))] |} with
    | (st', Ok o) => (st', Ok o)
    | (st', Exc) => (st', Ok Failed)
    end.
Proof.
  intros Hd Hf Hc Hh Hw Hq Ho.
  rewrite (click_decoded depth raw st Hd Hf).
  change (Json.eq_str (JStr "#") "#") with true. cbv iota.
  unfold Nav.hover_then_reselect, Nav._extract_clickable_elements.
  cbn [Json.strip].
  unfold Nav.try_except, Nav.bind, Nav.lift, Nav.call, Nav.ret.
  cbn [world trace]. rewrite Hc. cbn [Nat.ltb Nat.leb world trace].
  rewrite Hh. cbn [world trace]. rewrite Hw. cbn [world trace].
  rewrite Hq. cbn [world trace]. rewrite Ho.
  repeat rewrite <- app_assoc. cbn [app].
  match goal with
  | |- context [Nav._click_recommended_elements env depth response ?s] =>
      destruct (Nav._click_recommended_elements env depth response s)
        as [st' [o|]]
  end; reflexivity.
Qed.

(** The executor of [sample.py] refuses an answer without [href]. *)
Lemma sample_refuses_missing_href raw data element_text next_steps st :
  Nav._extract_json_from_gemini_response env raw = Ok data ->
  Nav.read_fields data = Ok (element_text, JNull, next_steps) ->
  Nav.sample_click_recommended_elements env raw st = (st, Ok Failed).
Proof.
  intros Hd Hf. unfold Nav.sample_click_recommended_elements.
  unfold Nav.bind at 1. unfold Nav.lift at 1. rewrite Hd.
  unfold Nav.try_except, Nav.bind, Nav.lift. now rewrite Hf.
Qed.

(** C3, amended: the executor of [main.py] takes the hover-then-reselect
    path exactly when [href] equals the placeholder; an answer whose
    [element_attributes] has no [href] entry goes down the direct-link
    path without any hover, and the executor of [sample.py] reports failed
    for it.  On the hover path, the outcome is failed when counting the
    ancestor list items or hovering raises; when no ancestor list item
    matches [element_text], the executor goes on to the direct-link
    selectors with the placeholder as [href]. *)
Theorem hover_path_only_for_placeholder
    depth raw data element_text href next_steps st :
  Nav._extract_json_from_gemini_response env raw = Ok data ->
  Nav.read_fields data = Ok (element_text, href, next_steps) ->
  (Json.eq_str href "#" = false ->
     Nav._click_recommended_elements env (S depth) raw st
     = Nav.try_except
         (Nav.click_directly env 5000 href element_text next_steps)
         (Nav.ret Failed) st)
  /\ (forall text,
        Json.eq_str href "#" = true -> element_text = JStr text ->
        let sel := Nav.parent_selector (strip text) in
        let st1 := {| world := fst (locator_count env sel (world st));
                      trace := trace st ++ [EvCount sel] |} in
        match snd (locator_count env sel (world st)) with
        | Exc =>
            Nav._click_recommended_elements env (S depth) raw st
            = (st1, Ok Failed)
        | Ok 0 =>
            Nav._click_recommended_elements env (S depth) raw st
            = Nav.click_directly env 5000 href element_text next_steps st1
        | Ok (S _) =>
            snd (locator_hover env sel (world st1)) = Exc ->
            Nav._click_recommended_elements env (S depth) raw st
            = ({| world := fst (locator_hover env sel (world st1));
                  trace := trace st ++ [EvCount sel; EvHover sel] |},
               Ok Failed)
        end)
  /\ (href = JNull ->
      Nav.sample_click_recommended_elements env raw st = (st, Ok Failed)).
Proof.
  intros Hd Hf.
  assert (href = JNull ->
          Nav.sample_click_recommended_elements env raw st = (st, Ok Failed))
    as Hsample.
  { intros ->. now apply sample_refuses_missing_href with data element_text
                                                      next_steps. }
  rewrite (click_decoded depth raw st Hd Hf).
  split; [|split; [|exact Hsample]].
  - intros Hh. rewrite Hh. reflexivity.
  - intros text Hh -> sel st1. rewrite Hh. subst sel st1.
    unfold Nav.hover_then_reselect. cbn [Json.strip].
    destruct (locator_count env (Nav.parent_selector (strip text)) (world st))
      as [w1 [[|n]|]] eqn:Hc; cbn [fst snd].
    + unfold Nav.try_except at 1 2. unfold Nav.bind at 1 2 3.
      unfold Nav.lift, Nav.call. rewrite Hc. cbn [Nat.ltb Nat.leb].
      unfold Nav.ret at 1. apply click_directly_total.
    + intros Hx.
      unfold Nav.try_except, Nav.bind, Nav.lift, Nav.call, Nav.ret.
      rewrite Hc. cbn [Nat.ltb Nat.leb world trace] in *.
      destruct (locator_hover env (Nav.parent_selector (strip text)) w1)
        as [w2 [u|]]; [discriminate|].
      cbn [fst]. now rewrite <- app_assoc.
    + unfold Nav.try_except, Nav.bind, Nav.lift, Nav.call, Nav.ret.
      now rewrite Hc.
Qed.

(** C9, amended: on the direct-link path the executor first tries the
    selector matching [href] exactly and only then the one matching the
    trimmed display text; the first whose click and settling wait both go
    through decides the outcome ([stop] on [exit_now], [continue]
    otherwise), and the outcome is failed when neither does.  A click that
    goes through but whose settling wait raises counts as a failed
    attempt.  Both executors reach this
    path the same way, [main.py] for an [href] other than the
    placeholder, [sample.py] for a truthy [href]. *)
Theorem attribute_selector_is_tried_first settle href text next_steps st :
  Nav.click_directly env settle href (JStr text) next_steps st
  = match Nav.attempt env settle (Nav.attr_selector env href) st with
    | (st1, Ok _) => (st1, Ok (Nav.verdict next_steps))
    | (st1, Exc) =>
        match Nav.attempt env settle (Nav.text_selector (strip text)) st1 with
        | (st2, Ok _) => (st2, Ok (Nav.verdict next_steps))
        | (st2, Exc) => (st2, Ok Failed)
        end
    end
  /\ (exists tr : list event,
        trace (fst (Nav.click_directly env settle href (JStr text)
                      next_steps st))
        = (trace st ++ EvClick (Nav.attr_selector env href) :: tr)%list)
  /\ (forall depth raw data,
        Nav._extract_json_from_gemini_response env raw = Ok data ->
        Nav.read_fields data = Ok (JStr text, href, next_steps) ->
        Json.eq_str href "#" = false ->
        Nav._click_recommended_elements env (S depth) raw st
        = Nav.click_directly env 5000 href (JStr text) next_steps st)
  /\ (forall raw data,
        Nav._extract_json_from_gemini_response env raw = Ok data ->
        Nav.read_fields data = Ok (JStr text, href, next_steps) ->
        Json.falsy href = false ->
        Nav.sample_click_recommended_elements env raw st
        = Nav.click_directly env 10000 href (JStr text) next_steps st).
Proof.
  pose proof (click_directly_selectors settle href text next_steps st) as Hs.
  pose proof (fun ms => click_directly_total ms href text next_steps)
    as Htotal.
  split; [exact Hs|]. split; [|split].
  - rewrite Hs.
    destruct (attempt_starts_with_click settle
                (Nav.attr_selector env href) st) as [tr Htr].
    destruct (Nav.attempt env settle (Nav.attr_selector env href) st)
      as [st1 [u|]]; cbn [fst] in *.
    + exists tr. exact Htr.
    + destruct (attempt_starts_with_click settle
                  (Nav.text_selector (strip text)) st1) as [tr2 Htr2].
      destruct (Nav.attempt env settle (Nav.text_selector (strip text)) st1)
        as [st2 [u|]]; cbn [fst] in *;
        exists (tr ++ EvClick (Nav.text_selector (strip text)) :: tr2)%list;
        rewrite Htr2, Htr, <- app_assoc; reflexivity.
  - intros depth raw data Hd Hf Hh.
    rewrite (click_decoded depth raw st Hd Hf), Hh.
    unfold Nav.bind at 1. unfold Nav.ret at 1. apply Htotal.
  - intros raw data Hd Hf Hfalsy.
    unfold Nav.sample_click_recommended_elements.
    unfold Nav.bind at 1. unfold Nav.lift at 1. rewrite Hd.
    rewrite <- (Htotal 10000%N st). unfold Nav.try_except.
    unfold Nav.bind at 1. unfold Nav.lift at 1. rewrite Hf, Hfalsy.
    reflexivity.
Qed.

(** C4, amended: for every oracle output that decodes after
    fence-stripping but lacks a required field
    ([recommended_action.element_text] or [next_steps]), the interpreter
    succeeds, the executor catches the failed lookup and reports failed,
    and the loop terminates in [ActionFailed] reporting [False]; an output
    that does not decode terminates the loop in [DecisionError] reporting
    [None]. *)
Theorem missing_field_fails_the_action tries prompt st w1 e es w2 raw :
  query_selector_all env "a, button" (world st) = (w1, Ok (e :: es)) ->
  gemini_response env
    (Nav._create_gemini_prompt env prompt (Nav._process_elements (e :: es)))
    w1 = (w2, Ok raw) ->
  let st2 :=
    {| world := w2;
       trace := trace st
                ++ [EvQuery;
                    EvOracle (Nav._create_gemini_prompt env prompt
                                (Nav._process_elements (e :: es)))] |} in
  (forall data,
      Nav._extract_json_from_gemini_response env raw = Ok data ->
      Nav.missing_required data = true ->
      Nav.navigation_loop env (S tries) prompt st = (st2, ActionFailed))
  /\ (Nav._extract_json_from_gemini_response env raw = Exc ->
      Nav.navigation_loop env (S tries) prompt st = (st2, DecisionError))
  /\ return_value ActionFailed = PBool false
  /\ return_value DecisionError = PNone.
Proof.
  intros Hq Ho st2.
  pose proof (iteration_decided prompt st Hq Ho) as Hit. fold st2 in Hit.
  repeat split.
  - intros data Hd Hm. cbn [Nav.navigation_loop].
    rewrite (Hit st2 (Ok Failed)); [reflexivity|].
    now apply click_unreadable with data, missing_required_raises.
  - intros Hd. cbn [Nav.navigation_loop].
    rewrite (Hit st2 Exc); [reflexivity|]. now apply click_undecodable.
Qed.

End Executor.

(* ================================================================= *)
(** ** Runs on the scripted worlds *)

Module Runs.
Import Fixture.

Lemma goal_url : Nav._extract_url_from_prompt goal = Some site_url.
Proof. vm_compute. reflexivity. Qed.

Lemma script_shape (d : nat) : script d = hd "" (script d) :: tl (script d).
Proof. destruct d; reflexivity. Qed.

Lemma oracle_pops limit p (w : list string) :
  w = hd "" w :: tl w ->
  gemini_response (menu limit) p w = (tl w, Ok (hd "" w)).
Proof. intros ->. reflexivity. Qed.

(** The menu page with a model that opens the menu [d] times before it
    picks the entry: the executor nests [d] deep, asks the oracle [d] more
    times and reports continue. *)
Lemma nested_menu_run (d : nat) : forall k limit tr,
  d <= k ->
  exists tr' : list event,
    Nav._click_recommended_elements (menu limit) (S k) (hd "" (script d))
      {| world := tl (script d); trace := tr |}
    = ({| world := []; trace := tr ++ tr' |}, Ok Continue)
    /\ oracle_calls tr' = d.
Proof.
  induction d as [|d IH]; intros k limit tr Hk.
  - change (hd "" (script 0)) with (dumps pdf).
    change (tl (script 0)) with (@nil string).
    exists [EvClick "a[href='/services/pdf']"; EvWait 5000].
    split; [|reflexivity].
    rewrite (click_decoded (menu limit) k (dumps pdf) (data:=pdf)
               (element_text:=JStr "PDF") (href:=JStr "/services/pdf")
               (next_steps:=JStr "read the page"))
      by (vm_compute; reflexivity).
    change (Json.eq_str (JStr "/services/pdf") "#") with false. cbv iota.
    unfold Nav.bind at 1. unfold Nav.ret at 1.
    rewrite click_directly_total, click_directly_selectors.
    change (tr ++ [EvClick "a[href='/services/pdf']"; EvWait 5000])%list
      with (tr ++ ([EvClick "a[href='/services/pdf']"] ++ [EvWait 5000]))%list.
    rewrite app_assoc. reflexivity.
  - change (hd "" (script (S d))) with (dumps services).
    change (tl (script (S d))) with (script d).
    destruct k as [|k]; [lia|].
    destruct (IH k limit (tr ++ hover_events limit)%list)
      as (tr' & Hrun & Hcount); [lia|].
    exists (hover_events limit ++ tr')%list. split.
    + rewrite (hover_path_recurses (menu limit) (S k) (dumps services)
                 (data:=services) (text:="Services")
                 (next_steps:=JStr "pick an entry")
                 {| world := script d; trace := tr |}
                 (n:=0) (w1:=script d) (w2:=script d) (u2:=tt)
                 (w3:=script d) (u3:=tt) (w4:=script d)
                 (e:=link "Docs" "/docs" true)
                 (es:=[link "Download" "/file.pdf" true;
                       link "Services" "#" true])
                 (w5:=tl (script d)) (response:=hd "" (script d)));
        try reflexivity; try (vm_compute; reflexivity).
      * cbn [world trace].
        lazymatch goal with
        | |- context [{| world := _; trace := ?t |}] =>
            change t with (tr ++ hover_events limit)%list
        end.
        rewrite Hrun, <- app_assoc. reflexivity.
      * apply oracle_pops, script_shape.
    + rewrite oracle_calls_app, Hcount. reflexivity.
Qed.

(** A session on the menu page with a budget of one pass: the pass nests
    [d] deep, the oracle is asked [d + 1] times, and the loop ends
    exhausted. *)
Lemma menu_session (d : nat) :
  snd (Nav.visit_website (menu d) once goal (start (script d)))
  = Returns Exhausted
  /\ oracle_calls
       (trace (fst (Nav.visit_website (menu d) once goal (start (script d)))))
     = S d.
Proof.
  rewrite (visit_website_loop (menu d) once goal (start (script d))
             (w0:=script d) (u0:=tt) (w1:=script d) (u1:=tt)
             (w2:=script d) (u2:=tt) eq_refl eq_refl goal_url eq_refl).
  change (MAX_TRIES once) with 1.
  cbn [Nav.navigation_loop start trace world app].
  destruct (nested_menu_run (k:=d) d
              ([EvLaunch; EvNewPage; EvGoto site_url]
               ++ [EvQuery;
                   EvOracle (Nav._create_gemini_prompt (menu d) goal
                               (Nav._process_elements
                                  (elements (page true [] 1 true))))])
              (le_n d)) as (tr' & Hrun & Hcount).
  rewrite (iteration_decided (menu d) goal
             {| world := script d;
                trace := [EvLaunch; EvNewPage; EvGoto site_url] |}
             (w1:=script d) (e:=link "Docs" "/docs" true)
             (es:=[link "Download" "/file.pdf" true;
                   link "Services" "#" true])
             (w2:=tl (script d)) (raw:=hd "" (script d)) eq_refl
             (oracle_pops d _ (script_shape d))
             (r:=Ok Continue) Hrun).
  cbn -[oracle_calls Nav._create_gemini_prompt]. split; [reflexivity|].
  repeat rewrite oracle_calls_cons. rewrite oracle_calls_app, Hcount.
  cbn. lia.
Qed.

End Runs.

(* ================================================================= *)
(** ** Nested decisions and the budget *)

(** C10: on the hover path the executor asks the oracle once more and calls
    itself on the new answer; a pass of the loop costs one try of the budget
    whatever the executor did inside it; and the nesting is not bounded by
    the budget: for every [d] there is a session with a budget of a single
    pass in which the executor nests [d] deep and the oracle is asked
    [d + 1] times. *)
Theorem nested_decisions_do_not_use_the_budget :
  (forall W (env : Env W) depth raw data text next_steps st
          n w1 w2 u2 w3 u3 w4 e es w5 response,
      Nav._extract_json_from_gemini_response env raw = Ok data ->
      Nav.read_fields data = Ok (JStr text, JStr "#", next_steps) ->
      locator_count env (Nav.parent_selector (strip text)) (world st)
      = (w1, Ok (S n)) ->
      locator_hover env (Nav.parent_selector (strip text)) w1 = (w2, Ok u2) ->
      wait_for_timeout env 1000 w2 = (w3, Ok u3) ->
      query_selector_all env "a, button" w3 = (w4, Ok (e :: es)) ->
      gemini_response env
        (Nav._create_gemini_prompt env (Nav.hover_prompt env (JStr text))
           (Nav._process_elements (e :: es))) w4 = (w5, Ok response) ->
      Nav._click_recommended_elements env (S depth) raw st
      = match Nav._click_recommended_elements env depth response
                {| world := w5;
                   trace := trace st
                            ++ [EvCount (Nav.parent_selector (strip text));
                                EvHover (Nav.parent_selector (strip text));
                                EvWait 1000;
                                EvQuery;
                                EvOracle
                                  (Nav._create_gemini_prompt env
                                     (Nav.hover_prompt env (JStr text))
                                     (Nav._process_elements (e :: es)))] |}
        with
        | (st', Ok o) => (st', Ok o)
        | (st', Exc) => (st', Ok Failed)
        end)
  /\ (forall W (env : Env W) tries prompt st st',
        Nav.iteration env prompt st = (st', Nav.Again) ->
        Nav.navigation_loop env (S tries) prompt st
        = Nav.navigation_loop env tries prompt st')
  /\ (forall d,
        snd (Nav.visit_website (Fixture.menu d) Fixture.once Fixture.goal
               (Fixture.start (Fixture.script d)))
        = Returns Exhausted
        /\ oracle_calls
             (trace (fst (Nav.visit_website (Fixture.menu d) Fixture.once
                            Fixture.goal (Fixture.start (Fixture.script d)))))
           = S d
        /\ MAX_TRIES Fixture.once = 1).
Proof.
  split; [|split].
  - intros. eapply hover_path_recurses; eassumption.
  - intros W env tries prompt st st' Hi. cbn [Nav.navigation_loop].
    now rewrite Hi.
  - intros d. destruct (Runs.menu_session d) as [Hr Hc]. auto.
Qed.

(** C10 on the menu page: the model opens the menu once and then picks the
    entry; and a pass that continues leaves the rest of the budget. *)
Lemma nested_decisions_witness :
  Nav._click_recommended_elements (Fixture.menu 1) 2
    (Fixture.dumps Fixture.services)
    (Fixture.start [Fixture.dumps Fixture.pdf])
  = ({| world := [];
        trace := Fixture.hover_events 1
                 ++ [EvClick "a[href='/services/pdf']"; EvWait 5000] |},
     Ok Continue)
  /\ Nav.navigation_loop (Fixture.clicking ["a[href='/docs']"]) 2 Fixture.goal
       (Fixture.start [Fixture.dumps Fixture.docs])
     = Nav.navigation_loop (Fixture.clicking ["a[href='/docs']"]) 1
         Fixture.goal
         (fst (Nav.iteration (Fixture.clicking ["a[href='/docs']"])
                 Fixture.goal (Fixture.start [Fixture.dumps Fixture.docs]))).
Proof.
  split.
  - rewrite (proj1 nested_decisions_do_not_use_the_budget _ (Fixture.menu 1) 1
               (Fixture.dumps Fixture.services) Fixture.services "Services"
               (JStr "pick an entry")
               (Fixture.start [Fixture.dumps Fixture.pdf])
               0 [Fixture.dumps Fixture.pdf] [Fixture.dumps Fixture.pdf] tt
               [Fixture.dumps Fixture.pdf] tt [Fixture.dumps Fixture.pdf]
               (Fixture.link "Docs" "/docs" true)
               [Fixture.link "Download" "/file.pdf" true;
                Fixture.link "Services" "#" true]
               [] (Fixture.dumps Fixture.pdf));
      vm_compute; reflexivity.
  - apply (proj1 (proj2 nested_decisions_do_not_use_the_budget)).
    vm_compute. reflexivity.
Defined.

(* ================================================================= *)
(** ** What a session returns *)

(** No exit of [visit_website] returns a recommendation. *)
Lemma return_value_is_not_a_dict (t : terminal) (d : json) :
  return_value t <> PDict d.
Proof. destruct t; discriminate. Qed.

(** C1 fails on the code: a session that ends because the executor reports
    stop (the link is clicked and the answer says [exit_now]) returns
    [False], not the last recommendation; a session whose click fails
    returns the same [False], so the caller cannot tell the two apart; and
    no exit returns a structured value. *)
Theorem completed_session_returns_false :
  snd (Nav.visit_website (Fixture.clicking ["a[href='/file.pdf']"]) __init__
         Fixture.goal (Fixture.start [Fixture.dumps Fixture.download]))
  = Returns Completed
  /\ return_value Completed = PBool false
  /\ snd (Nav.visit_website Fixture.still __init__ Fixture.goal
            (Fixture.start [Fixture.dumps Fixture.download]))
     = Returns ActionFailed
  /\ return_value ActionFailed = return_value Completed
  /\ (forall t d, return_value t <> PDict d).
Proof.
  repeat split; try (vm_compute; reflexivity).
  intros t d. destruct t; discriminate.
Qed.

(* ================================================================= *)
(** ** Where the specification and the code part *)

(** C2 as stated fails: on a page whose links are all hidden the
    observation is empty, yet the query returned elements, so the oracle is
    asked and the loop does not end in [NoElements]. *)
Lemma hidden_elements_reach_the_oracle :
  Nav._process_elements
    (Fixture.elements (Fixture.page false ["a[href='/docs']"] 0 true)) = []
  /\ oracle_calls
       (trace (fst (Nav.visit_website Fixture.hidden Fixture.once Fixture.goal
                      (Fixture.start [Fixture.dumps Fixture.docs])))) = 1
  /\ snd (Nav.visit_website Fixture.hidden Fixture.once Fixture.goal
            (Fixture.start [Fixture.dumps Fixture.docs]))
     = Returns Exhausted.
Proof. repeat split; vm_compute; reflexivity. Qed.

(** C3 as stated fails twice: an answer without [href] is clicked directly,
    with no hover, and succeeds; and with the placeholder [href] and no
    matching list item the executor also goes on to click, and
    succeeds. *)
Lemma missing_href_and_missing_item_click_directly :
  Nav._click_recommended_elements (Fixture.clicking ["a:has-text('Docs')"]) 1
    (Fixture.dumps Fixture.untargeted) (Fixture.start [])
  = ({| world := [];
        trace := [EvClick "a[href='None']"; EvClick "a:has-text('Docs')";
                  EvWait 5000] |},
     Ok Continue)
  /\ Nav._click_recommended_elements (Fixture.clicking ["a[href='#']"]) 1
       (Fixture.dumps Fixture.services) (Fixture.start [])
     = ({| world := [];
           trace := [EvCount "li:has(a:has-text('Services'))";
                     EvClick "a[href='#']"; EvWait 5000] |},
        Ok Continue).
Proof. split; vm_compute; reflexivity. Qed.

(** C4 as stated fails: the answer [{}] lacks both required fields, the
    interpreter decodes it without error, and the session reports [False],
    the signal of a failed action, not [None]. *)
Lemma empty_object_fails_the_action :
  Nav._extract_json_from_gemini_response Fixture.still "{}" = Ok (JObj [])
  /\ Nav.missing_required (JObj []) = true
  /\ snd (Nav.visit_website Fixture.still __init__ Fixture.goal
            (Fixture.start ["{}"]))
     = Returns ActionFailed
  /\ return_value ActionFailed = PBool false
  /\ return_value ActionFailed <> PNone.
Proof.
  repeat split; try (vm_compute; reflexivity). discriminate.
Qed.

(** C5 as stated fails: with an instruction without URL the browser is
    launched and a page is opened before the instruction is looked at. *)
Lemma browser_is_launched_before_the_url_check :
  contains "http://" "download the file" = false
  /\ contains "https://" "download the file" = false
  /\ Nav.visit_website Fixture.still __init__ "download the file"
       (Fixture.start [])
     = ({| world := []; trace := [EvLaunch; EvNewPage; EvClose] |},
        Returns InputError).
Proof. repeat split; vm_compute; reflexivity. Qed.

(** C8 as stated fails: with a budget of one pass and an action that
    returns continue, the session ends exhausted and returns [None], the
    null result of [NoElements], not the [False] of a failed action. *)
Lemma exhausted_session_returns_none :
  snd (Nav.visit_website (Fixture.clicking ["a[href='/docs']"]) Fixture.once
         Fixture.goal (Fixture.start [Fixture.dumps Fixture.docs]))
  = Returns Exhausted
  /\ return_value Exhausted = PNone
  /\ return_value Exhausted <> return_value ActionFailed
  /\ return_value Exhausted = return_value NoElements.
Proof.
  repeat split; try (vm_compute; reflexivity). discriminate.
Qed.

(* ================================================================= *)
(** ** The theorems at work *)

(** C2, amended, on the page without any anchor or button. *)
Lemma empty_query_witness :
  query_selector_all Fixture.blank "a, button" [] = ([], Ok [])
  /\ Nav.navigation_loop Fixture.blank 1 Fixture.goal (Fixture.start [])
     = ({| world := []; trace := [EvQuery] |}, NoElements).
Proof.
  split; [reflexivity|].
  exact (proj1 (empty_query_ends_in_NoElements Fixture.blank 0 Fixture.goal
                  (Fixture.start []) (w1:=[]) eq_refl)).
Defined.

(** C3, amended, on an answer without [href] and on a list item that
    cannot be hovered. *)
Lemma hover_path_witness :
  Nav._click_recommended_elements (Fixture.clicking ["a:has-text('Docs')"]) 1
    (Fixture.dumps Fixture.untargeted) (Fixture.start [])
  = Nav.try_except
      (Nav.click_directly (Fixture.clicking ["a:has-text('Docs')"]) 5000
         JNull (JStr "Docs") (JStr "read the page"))
      (Nav.ret Failed) (Fixture.start [])
  /\ Nav._click_recommended_elements Fixture.stuck_menu 1
       (Fixture.dumps Fixture.services) (Fixture.start [])
     = ({| world := [];
           trace := [EvCount "li:has(a:has-text('Services'))";
                     EvHover "li:has(a:has-text('Services'))"] |},
        Ok Failed).
Proof.
  split.
  - apply (hover_path_only_for_placeholder
             (Fixture.clicking ["a:has-text('Docs')"]) 0
             (Fixture.dumps Fixture.untargeted) (data:=Fixture.untargeted)
             (Fixture.start []));
      vm_compute; reflexivity.
  - apply (proj1 (proj2 (hover_path_only_for_placeholder Fixture.stuck_menu 0
                           (Fixture.dumps Fixture.services)
                           (data:=Fixture.services)
                           (element_text:=JStr "Services") (href:=JStr "#")
                           (next_steps:=JStr "pick an entry")
                           (Fixture.start [])
                           ltac:(vm_compute; reflexivity)
                           ltac:(vm_compute; reflexivity)))
             "Services" eq_refl eq_refl eq_refl).
Defined.

(** C4, amended, on the answer [{}]. *)
Lemma missing_field_witness :
  Nav.missing_required (JObj []) = true
  /\ snd (Nav.navigation_loop Fixture.still 1 Fixture.goal
            (Fixture.start ["{}"])) = ActionFailed.
Proof.
  split; [reflexivity|].
  rewrite (proj1 (missing_field_fails_the_action Fixture.still 0 Fixture.goal
                    (Fixture.start ["{}"]) (w1:=["{}"])
                    (e:=Fixture.link "Docs" "/docs" true)
                    (es:=[Fixture.link "Download" "/file.pdf" true;
                          Fixture.link "Services" "#" true])
                    (w2:=[]) (raw:="{}") eq_refl eq_refl)
             (JObj []) eq_refl eq_refl).
  reflexivity.
Defined.

(** C5, amended, on an instruction without URL. *)
Lemma no_url_witness :
  Nav._extract_url_from_prompt "download the file" = None
  /\ Nav.visit_website Fixture.still __init__ "download the file"
       (Fixture.start [])
     = ({| world := []; trace := [EvLaunch; EvNewPage; EvClose] |},
        Returns InputError).
Proof.
  split; [reflexivity|].
  exact (proj1 (proj2 (no_url_aborts_after_launch Fixture.still __init__
                         "download the file" (Fixture.start [])
                         (w0:=[]) (u0:=tt) (w1:=[]) (u1:=tt)
                         eq_refl eq_refl eq_refl))).
Defined.


(** C8, amended, with a budget of one pass. *)
Lemma exhausted_budget_witness :
  Nav.navigation_loop (Fixture.clicking ["a[href='/docs']"]) 1 Fixture.goal
    (Fixture.start [Fixture.dumps Fixture.docs])
  = (fst (Nav.iteration (Fixture.clicking ["a[href='/docs']"]) Fixture.goal
            (Fixture.start [Fixture.dumps Fixture.docs])),
     Exhausted).
Proof.
  apply (exhausted_budget_reports_none
           (env:=Fixture.clicking ["a[href='/docs']"]) (prompt:=Fixture.goal)
           (tries:=1)).
  eapply Nav.continues_S; [|apply Nav.continues_O].
  vm_compute. reflexivity.
Defined.

(** C9 on a page where only the text selector can be clicked. *)
Lemma selector_order_witness :
  Nav._click_recommended_elements (Fixture.clicking ["a:has-text('Docs')"]) 1
    (Fixture.dumps Fixture.docs) (Fixture.start [])
  = ({| world := [];
        trace := [EvClick "a[href='/docs']"; EvClick "a:has-text('Docs')";
                  EvWait 5000] |},
     Ok Continue).
Proof.
  rewrite (proj1 (proj2 (proj2 (attribute_selector_is_tried_first
                                  (Fixture.clicking ["a:has-text('Docs')"])
                                  5000 (JStr "/docs") "Docs"
                                  (JStr "read the page") (Fixture.start []))))
             0 (Fixture.dumps Fixture.docs) Fixture.docs);
    vm_compute; reflexivity.
Defined.

(* ================================================================= *)
(** ** More on the URL of the instruction *)

Module UrlFacts.

Lemma prefix_split (p s : string) :
  String.prefix p s = true -> s = p ++ drop (String.length p) s.
Proof.
  revert s; induction p as [|x p IH]; intros [|c s]; simpl; try reflexivity;
    try discriminate.
  destruct (ascii_dec x c) as [->|]; [|discriminate].
  intros H. f_equal. now apply IH.
Qed.

Lemma all_chars_app (p : ascii -> bool) (a b : string) :
  all_chars p (a ++ b) = all_chars p a && all_chars p b.
Proof.
  induction a as [|c a IH]; simpl; [reflexivity|].
  now rewrite IH, andb_assoc.
Qed.

Lemma take_while_all (p : ascii -> bool) (s : string) :
  all_chars p (take_while p s) = true.
Proof.
  induction s as [|c s IH]; simpl; [reflexivity|].
  destruct (p c) eqn:Hc; simpl; [now rewrite Hc|reflexivity].
Qed.

Lemma take_while_rest (p : ascii -> bool) (s : string) :
  exists post, s = take_while p s ++ post /\ stops p post.
Proof.
  induction s as [|c s (post & Hs & Hp)]; simpl.
  - now exists "".
  - destruct (p c) eqn:Hc.
    + exists post. split; [simpl; now rewrite <- Hs | exact Hp].
    + exists (String c s). split; [reflexivity | exact Hc].
Qed.

Lemma match_url_at_shape (s u : string) :
  Regex.match_url_at s = Some u ->
  exists scheme body post,
    (scheme = "http://" \/ scheme = "https://")
    /\ u = scheme ++ body /\ body <> ""
    /\ all_chars Regex.url_char body = true
    /\ s = u ++ post /\ stops Regex.url_char post.
Proof.
  unfold Regex.match_url_at.
  destruct (String.prefix "https://" s) eqn:Hs.
  - destruct (take_while_rest Regex.url_char (drop 8 s)) as (post & Hr & Hp).
    destruct (take_while Regex.url_char (drop 8 s)) as [|c body] eqn:Hb;
      [discriminate|].
    intros [= <-]. exists "https://", (String c body), post.
    repeat split; auto; try discriminate.
    + rewrite <- Hb. apply take_while_all.
    + change (s = "https://" ++ (String c body ++ post)).
      rewrite <- Hr. exact (prefix_split _ _ Hs).
  - destruct (String.prefix "http://" s) eqn:Hs'; [|discriminate].
    destruct (take_while_rest Regex.url_char (drop 7 s)) as (post & Hr & Hp).
    destruct (take_while Regex.url_char (drop 7 s)) as [|c body] eqn:Hb;
      [discriminate|].
    intros [= <-]. exists "http://", (String c body), post.
    repeat split; auto; try discriminate.
    + rewrite <- Hb. apply take_while_all.
    + change (s = "http://" ++ (String c body ++ post)).
      rewrite <- Hr. exact (prefix_split _ _ Hs').
Qed.

Lemma search_url_shape (s u : string) :
  Regex.search_url s = Some u ->
  exists pre rest,
    s = pre ++ rest /\ Regex.match_url_at rest = Some u
    /\ forall a b, pre = a ++ b -> b <> "" ->
                   Regex.match_url_at (b ++ rest) = None.
Proof.
  induction s as [|c s IH]; cbn [Regex.search_url].
  - destruct (Regex.match_url_at "") eqn:Hm; [|discriminate].
    intros [= <-]. exists "", "". repeat split; auto.
    intros [|x a] b Hab Hb; simpl in Hab; [now subst b|discriminate].
  - destruct (Regex.match_url_at (String c s)) as [v|] eqn:Hm.
    + intros [= <-]. exists "", (String c s). repeat split; auto.
      intros [|x a] b Hab Hb; simpl in Hab; [now subst b|discriminate].
    + intros Hs. destruct (IH Hs) as (pre & rest & -> & Hr & Hleft).
      exists (String c pre), rest. repeat split; auto.
      intros [|x a] b Hab Hb; simpl in Hab.
      * subst b. exact Hm.
      * injection Hab as -> Hab. now apply Hleft with a.
Qed.

Lemma prefix_app (p s : string) : String.prefix p (p ++ s) = true.
Proof.
  induction p as [|x p IH]; simpl; [now destruct s|].
  destruct (ascii_dec x x); [exact IH | congruence].
Qed.

(** The validation of line 80 never rejects a match. *)
Lemma extract_is_search (prompt : string) :
  Nav._extract_url_from_prompt prompt = Regex.search_url prompt.
Proof.
  unfold Nav._extract_url_from_prompt.
  destruct (Regex.search_url prompt) as [u|] eqn:Hs; [|reflexivity].
  destruct (search_url_shape _ Hs) as (pre & rest & _ & Hm & _).
  destruct (match_url_at_shape _ Hm)
    as (scheme & body & post & [-> | ->] & -> & _);
    unfold startswith; rewrite prefix_app;
    [reflexivity | now rewrite orb_true_r].
Qed.

End UrlFacts.

(** X1: the validation of line 80 never rejects a match, and an extracted
    URL is one of the two schemes followed by at least one character, with
    no whitespace and no double quote anywhere. *)
Theorem extracted_url_is_well_formed (prompt : string) :
  Nav._extract_url_from_prompt prompt = Regex.search_url prompt
  /\ forall url, Nav._extract_url_from_prompt prompt = Some url ->
       exists scheme body,
         url = scheme ++ body
         /\ (scheme = "http://" \/ scheme = "https://")
         /\ body <> ""
         /\ all_chars Regex.url_char url = true.
Proof.
  pose proof (UrlFacts.extract_is_search prompt) as He.
  split; [exact He|]. intros url Hu. rewrite He in Hu.
  destruct (UrlFacts.search_url_shape _ Hu) as (pre & rest & _ & Hm & _).
  destruct (UrlFacts.match_url_at_shape _ Hm)
    as (scheme & body & post & Hsch & -> & Hne & Hall & _).
  exists scheme, body. repeat split; auto.
  rewrite UrlFacts.all_chars_app, Hall.
  destruct Hsch as [-> | ->]; reflexivity.
Qed.

(** X2: an extracted URL stands in the instruction, it is the leftmost
    match, and it runs up to the end of the instruction or to the first
    whitespace or double quote. *)
Theorem extracted_url_is_leftmost_and_maximal (prompt url : string) :
  Nav._extract_url_from_prompt prompt = Some url ->
  exists pre post,
    prompt = pre ++ url ++ post
    /\ match post with
       | EmptyString => True
       | String c _ => Regex.url_char c = false
       end
    /\ forall a b, pre = a ++ b -> b <> "" ->
                   Regex.match_url_at (b ++ url ++ post) = None.
Proof.
  intros Hu.
  rewrite UrlFacts.extract_is_search in Hu.
  destruct (UrlFacts.search_url_shape _ Hu) as (pre & rest & -> & Hm & Hleft).
  destruct (UrlFacts.match_url_at_shape _ Hm)
    as (scheme & body & post & _ & _ & _ & _ & -> & Hp).
  exists pre, post. repeat split; auto.
Qed.

(** X3: an instruction that mentions neither scheme has no URL, and one in
    which a scheme is directly followed by a character other than
    whitespace and the double quote has one. *)
Theorem url_found_when_scheme_has_a_body (prompt : string) :
  (contains "http://" prompt = false -> contains "https://" prompt = false ->
   Nav._extract_url_from_prompt prompt = None)
  /\ (forall pre scheme c rest,
        scheme = "http://" \/ scheme = "https://" ->
        Regex.url_char c = true ->
        prompt = pre ++ scheme ++ String c rest ->
        exists url, Nav._extract_url_from_prompt prompt = Some url).
Proof.
  split; [apply no_scheme_no_url|].
  intros pre scheme c rest Hsch Hc ->. rewrite UrlFacts.extract_is_search.
  induction pre as [|x pre IH].
  - cbn [append].
    assert (exists u, Regex.match_url_at (scheme ++ String c rest) = Some u)
      as [u Hu].
    { destruct Hsch as [-> | ->]; unfold Regex.match_url_at;
        cbn -[Regex.url_char]; rewrite Hc; cbn [is_empty]; eauto. }
    exists u. destruct scheme; [destruct Hsch; discriminate|].
    cbn [append Regex.search_url] in *. now rewrite Hu.
  - cbn [append Regex.search_url].
    destruct (Regex.match_url_at (String x (pre ++ scheme ++ String c rest)));
      eauto.
Qed.

(* ================================================================= *)
(** ** More on the observation *)

Module ObsFacts.

Lemma rstrip_idempotent (s : string) : rstrip (rstrip s) = rstrip s.
Proof.
  induction s as [|c s IH]; simpl; [reflexivity|].
  destruct (is_space c && is_empty (rstrip s)) eqn:Hc; simpl; [reflexivity|].
  now rewrite IH, Hc.
Qed.

Lemma lstrip_shape (s : string) :
  lstrip s = "" \/ exists c r, lstrip s = String c r /\ is_space c = false.
Proof.
  induction s as [|c s IH]; simpl; [now left|].
  destruct (is_space c) eqn:Hc; [exact IH | right; eauto].
Qed.

Lemma lstrip_rstrip (c : ascii) (r : string) :
  is_space c = false -> lstrip (rstrip (String c r)) = rstrip (String c r).
Proof.
  intros Hc. cbn [rstrip]. rewrite Hc. cbn [andb lstrip]. now rewrite Hc.
Qed.

Lemma strip_idempotent (s : string) : strip (strip s) = strip s.
Proof.
  unfold strip. destruct (lstrip_shape s) as [-> | (c & r & -> & Hc)].
  - reflexivity.
  - rewrite (@lstrip_rstrip c r Hc). apply rstrip_idempotent.
Qed.

Lemma process_elements_app (a b : list ElementHandle) :
  Nav._process_elements (a ++ b)
  = (Nav._process_elements a ++ Nav._process_elements b)%list.
Proof.
  induction a as [|e a IH]; simpl; [reflexivity|].
  destruct (Nav.process_element e); simpl; now rewrite IH.
Qed.

End ObsFacts.

(** X4: every entry of the processed observation is visible, and its text
    is never empty and carries no whitespace at either end: it is the
    trimmed inner text, or the label [[No Text]] when that is empty. *)
Theorem processed_tags_are_visible_and_labelled
    (elements : list ElementHandle) :
  Forall (fun t => visible (content t) = true
                   /\ text (content t) <> ""
                   /\ strip (text (content t)) = text (content t))
         (Nav._process_elements elements)
  /\ List.length (Nav._process_elements elements) <= List.length elements.
Proof.
  induction elements as [|e l [IH IHlen]]; simpl; [split; [constructor|lia]|].
  unfold Nav.process_element.
  destruct (tag_name e) as [tg|]; [|split; [exact IH|lia]].
  destruct (inner_text e) as [raw|]; [|split; [exact IH|lia]].
  destruct (attributes e) as [at_|]; [|split; [exact IH|lia]].
  destruct (is_visible e) as [[|]|]; try (split; [exact IH|lia]).
  split; [|simpl; lia]. constructor; [|exact IH]. simpl.
  split; [reflexivity|].
  destruct (strip raw) as [|c r] eqn:Hs; simpl.
  - split; [discriminate | reflexivity].
  - split; [discriminate|]. rewrite <- Hs. apply ObsFacts.strip_idempotent.
Qed.

(** X5: an element one of whose four queries raises, or that is not
    visible, is skipped, and the entries of the elements before and after
    it are what they are without it. *)
Theorem failing_element_is_skipped
    (before after : list ElementHandle) (element : ElementHandle) :
  tag_name element = Exc \/ inner_text element = Exc
  \/ attributes element = Exc \/ is_visible element = Exc
  \/ is_visible element = Ok false ->
  Nav._process_elements (before ++ element :: after)
  = (Nav._process_elements before ++ Nav._process_elements after)%list.
Proof.
  intros H. rewrite ObsFacts.process_elements_app. f_equal.
  cbn [Nav._process_elements].
  replace (Nav.process_element element) with (@None Tag); [reflexivity|].
  unfold Nav.process_element.
  destruct (tag_name element), (inner_text element), (attributes element),
    (is_visible element) as [[|]|]; try reflexivity;
    repeat (destruct H as [H|H]; try discriminate).
Qed.

(* ================================================================= *)
(** ** More on the response interpreter *)

Module CleanFacts.

Lemma prefix_of_longer (a b s : string) :
  String.prefix (a ++ b) s = true -> String.prefix a s = true.
Proof.
  revert s; induction a as [|x a IH]; intros s.
  - intros _. now destruct s.
  - destruct s as [|c s]; simpl; [discriminate|].
    destruct (ascii_dec x c); [apply IH | discriminate].
Qed.

Lemma sub_fences_without_fence (s : string) : forall bol,
  contains Regex.fence s = false -> Regex.sub_fences_from bol 0 s = s.
Proof.
  induction s as [|c s IH]; intros bol H; [reflexivity|].
  cbn [contains] in H. apply orb_false_elim in H as [Hp Hc].
  cbn [Regex.sub_fences_from]. rewrite Hp.
  destruct (String.prefix Regex.fence_json (String c s)) eqn:Hj.
  - apply (prefix_of_longer Regex.fence "json") in Hj. congruence.
  - rewrite andb_false_r. cbn [andb]. f_equal. now apply IH.
Qed.

End CleanFacts.

(** X6: a fence on one side only is removed as well: an opening delimiter
    line, bare or tagged [json], without a closing one, and a closing
    delimiter line without an opening one, leave the parsed result of the
    text unchanged. *)
Theorem one_sided_fence_is_stripped (W : Type) (env : Env W) (t : string) :
  Nav._extract_json_from_gemini_response env
    (Regex.fence_json ++ String nl t)
  = Nav._extract_json_from_gemini_response env t
  /\ Nav._extract_json_from_gemini_response env (Regex.fence ++ String nl t)
     = Nav._extract_json_from_gemini_response env t
  /\ Nav._extract_json_from_gemini_response env (t ++ String nl Regex.fence)
     = Nav._extract_json_from_gemini_response env t.
Proof.
  unfold Nav._extract_json_from_gemini_response, Nav.clean_json,
    Regex.sub_fences.
  split; [|split]; rewrite StrFacts.sub_fences_lines by (simpl; lia).
  - reflexivity.
  - reflexivity.
  - change (Regex.sub_fences_from true 0 Regex.fence) with "".
    now rewrite StrFacts.strip_app_space.
Qed.

(** X7: an answer in which no run of three backquotes occurs reaches the
    decoder as it is, trimmed of the whitespace around it. *)
Theorem text_without_fence_is_only_trimmed (s : string) :
  contains Regex.fence s = false -> Nav.clean_json s = strip s.
Proof.
  intros H. unfold Nav.clean_json, Regex.sub_fences.
  now rewrite CleanFacts.sub_fences_without_fence.
Qed.

(* ================================================================= *)
(** ** More on the action executor *)

Section ExecutorMore.

Variable W : Type.
Variable env : Env W.

Lemma handled_never_raises {A} (m : Nav.M W A) (a : A) (st : St W) :
  exists r, snd (Nav.try_except m (Nav.ret a) st) = Ok r.
Proof.
  unfold Nav.try_except, Nav.ret.
  destruct (m st) as [st' [x|]]; simpl; eauto.
Qed.

(** X8: the executor raises exactly when the answer does not decode;
    whatever the page and the model do after that, a decoded answer makes
    it return a truth value. *)
Theorem executor_raises_only_on_undecodable depth raw st :
  snd (Nav._click_recommended_elements env (S depth) raw st) = Exc
  <-> Nav._extract_json_from_gemini_response env raw = Exc.
Proof.
  split.
  - cbn [Nav._click_recommended_elements]. unfold Nav.bind at 1.
    unfold Nav.lift at 1.
    destruct (Nav._extract_json_from_gemini_response env raw) as [data|];
      [|reflexivity].
    match goal with
    | |- snd (Nav.try_except ?m (Nav.ret Failed) st) = Exc -> _ =>
        destruct (handled_never_raises m Failed st) as [r ->]
    end.
    discriminate.
  - intros H. now rewrite click_undecodable.
Qed.

(** X9: the executor reads three values of the answer and nothing else:
    two answers that agree on [element_text], on [href] and on the first
    entry of [next_steps] are executed in the same way. *)
Theorem only_three_fields_matter depth raw1 raw2 data1 data2 st :
  Nav._extract_json_from_gemini_response env raw1 = Ok data1 ->
  Nav._extract_json_from_gemini_response env raw2 = Ok data2 ->
  Nav.read_fields data1 = Nav.read_fields data2 ->
  Nav._click_recommended_elements env (S depth) raw1 st
  = Nav._click_recommended_elements env (S depth) raw2 st.
Proof.
  intros H1 H2 Hf.
  destruct (Nav.read_fields data1) as [[[et href] ns]|] eqn:E1.
  - rewrite (click_decoded env depth raw1 st H1 E1).
    now rewrite (click_decoded env depth raw2 st H2 (eq_sym Hf)).
  - rewrite (click_unreadable env depth raw1 st H1 E1).
    now rewrite (click_unreadable env depth raw2 st H2 (eq_sym Hf)).
Qed.

(** X10: the direct-link path never raises; its outcome is stop only if
    the first entry of [next_steps] is [exit_now], and continue only if it
    is anything else. *)
Theorem exit_now_decides_stop settle href text next_steps st :
  exists o,
    snd (Nav.click_directly env settle href (JStr text) next_steps st) = Ok o
    /\ (o = Stop -> next_steps = JStr "exit_now")
    /\ (o = Continue -> next_steps <> JStr "exit_now").
Proof.
  assert (Nav.verdict next_steps = Stop /\ next_steps = JStr "exit_now"
          \/ Nav.verdict next_steps = Continue
             /\ next_steps <> JStr "exit_now") as Hv.
  { unfold Nav.verdict, Json.eq_str. destruct next_steps; auto;
      try (right; split; [reflexivity | discriminate]).
    destruct (String.eqb s "exit_now") eqn:E.
    - left. apply String.eqb_eq in E. now subst.
    - right. split; [reflexivity|]. intros [= ->].
      now rewrite String.eqb_refl in E. }
  rewrite click_directly_selectors.
  destruct (Nav.attempt env settle (Nav.attr_selector env href) st)
    as [s1 [u|]]; cbn [snd].
  - exists (Nav.verdict next_steps). split; [reflexivity|].
    destruct Hv as [[-> ->] | [-> Hn]]; split; auto; discriminate.
  - destruct (Nav.attempt env settle (Nav.text_selector (strip text)) s1)
      as [s2 [u|]]; cbn [snd].
    + exists (Nav.verdict next_steps). split; [reflexivity|].
      destruct Hv as [[-> ->] | [-> Hn]]; split; auto; discriminate.
    + exists Failed. repeat split; discriminate.
Qed.

(** X11: when [next_steps] is a string instead of a list, its first
    character is what is compared with [exit_now], so the direct-link path
    never reports stop, not even for the string [exit_now]. *)
Theorem string_next_steps_never_stops data s element_text href next_steps :
  Json.getitem data "next_steps" = Ok (JStr s) ->
  Nav.read_fields data = Ok (element_text, href, next_steps) ->
  Nav.verdict next_steps = Continue
  /\ forall settle st,
       snd (Nav.click_directly env settle href element_text next_steps st)
       <> Ok Stop.
Proof.
  intros Hn Hf.
  assert (Nav.verdict next_steps = Continue) as Hv.
  { unfold Nav.read_fields in Hf. rewrite Hn in Hf.
    destruct (Json.getitem data "recommended_action") as [ra|];
      [|discriminate].
    destruct (Json.getitem ra "element_text") as [et|]; [|discriminate].
    destruct (Json.getitem ra "element_attributes") as [ea|]; [|discriminate].
    destruct (Json.get ea "href") as [h|]; [|discriminate].
    destruct s as [|c s]; [discriminate|]. cbn [Json.index0] in Hf.
    injection Hf as _ _ <-. unfold Nav.verdict, Json.eq_str.
    cbn [String.eqb]. destruct (Ascii.eqb c "e"); reflexivity. }
  split; [exact Hv|]. intros settle st.
  destruct element_text as [| | |t| |];
    try (unfold Nav.click_directly, Nav.selectors, Nav.bind, Nav.lift;
         cbn [Json.strip snd]; discriminate).
  rewrite click_directly_selectors, Hv.
  destruct (Nav.attempt env settle (Nav.attr_selector env href) st)
    as [s1 [u|]]; [discriminate|].
  destruct (Nav.attempt env settle (Nav.text_selector (strip t)) s1)
    as [s2 [u|]]; discriminate.
Qed.

(** X13: an answer whose [element_text] is not a string is refused by both
    executors before the page is touched: the outcome is failed and
    nothing is counted, hovered or clicked. *)
Theorem non_text_target_fails_untouched
    depth raw data element_text href next_steps st :
  Nav._extract_json_from_gemini_response env raw = Ok data ->
  Nav.read_fields data = Ok (element_text, href, next_steps) ->
  Json.strip element_text = Exc ->
  Nav._click_recommended_elements env (S depth) raw st = (st, Ok Failed)
  /\ Nav.sample_click_recommended_elements env raw st = (st, Ok Failed).
Proof.
  intros Hd Hf Hs. split.
  - rewrite (click_decoded env depth raw st Hd Hf).
    unfold Nav.hover_then_reselect, Nav.click_directly, Nav.selectors.
    rewrite Hs.
    destruct (Json.eq_str href "#"); reflexivity.
  - unfold Nav.sample_click_recommended_elements.
    unfold Nav.bind at 1. unfold Nav.lift at 1. rewrite Hd.
    unfold Nav.try_except. unfold Nav.bind at 1. unfold Nav.lift at 1.
    rewrite Hf. unfold Nav.click_directly, Nav.selectors. rewrite Hs.
    destruct (Json.falsy href); reflexivity.
Qed.

(** X12: once the list item is hovered, every later failure of the hover
    block gives failed: a raising wait, a raising query, a raising oracle,
    and an answer of the oracle that does not decode (which at the top
    level would end the session with [None]).  A menu that shows no
    element sends the executor on to the direct-link selectors. *)
Theorem hover_block_failures
    depth raw data text next_steps st n w1 w2 u2 :
  Nav._extract_json_from_gemini_response env raw = Ok data ->
  Nav.read_fields data = Ok (JStr text, JStr "#", next_steps) ->
  locator_count env (Nav.parent_selector (strip text)) (world st)
  = (w1, Ok (S n)) ->
  locator_hover env (Nav.parent_selector (strip text)) w1 = (w2, Ok u2) ->
  let sel := Nav.parent_selector (strip text) in
  let run := Nav._click_recommended_elements env (S depth) raw st in
  match wait_for_timeout env 1000 w2 with
  | (w3, Exc) =>
      run = ({| world := w3;
                trace := trace st ++ [EvCount sel; EvHover sel; EvWait 1000] |},
             Ok Failed)
  | (w3, Ok _) =>
      match query_selector_all env "a, button" w3 with
      | (w4, Exc) =>
          run = ({| world := w4;
                    trace := trace st ++ [EvCount sel; EvHover sel;
                                          EvWait 1000; EvQuery] |},
                 Ok Failed)
      | (w4, Ok []) =>
          run = Nav.click_directly env 5000 (JStr "#") (JStr text) next_steps
                  {| world := w4;
                     trace := trace st ++ [EvCount sel; EvHover sel;
                                           EvWait 1000; EvQuery] |}
      | (w4, Ok (e :: es)) =>
          let p := Nav._create_gemini_prompt env
                     (Nav.hover_prompt env (JStr text))
                     (Nav._process_elements (e :: es)) in
          let st5 w5 :=
            {| world := w5;
               trace := trace st ++ [EvCount sel; EvHover sel; EvWait 1000;
                                     EvQuery; EvOracle p] |} in
          match gemini_response env p w4 with
          | (w5, Exc) => run = (st5 w5, Ok Failed)
          | (w5, Ok response) =>
              Nav._extract_json_from_gemini_response env response = Exc ->
              run = (st5 w5, Ok Failed)
          end
      end
  end.
Proof.
  intros Hd Hf Hc Hh sel run. subst sel run.
  destruct (wait_for_timeout env 1000 w2) as [w3 [u3|]] eqn:Hw.
  2: { rewrite (click_decoded env depth raw st Hd Hf).
       change (Json.eq_str (JStr "#") "#") with true. cbv iota.
       unfold Nav.hover_then_reselect. cbn [Json.strip].
       unfold Nav.try_except, Nav.bind, Nav.lift, Nav.call, Nav.ret.
       cbn [world trace]. rewrite Hc. cbn [Nat.ltb Nat.leb world trace].
       rewrite Hh. cbn [world trace]. rewrite Hw.
       repeat rewrite <- app_assoc. reflexivity. }
  destruct (query_selector_all env "a, button" w3) as [w4 [[|e es]|]] eqn:Hq.
  - rewrite (click_decoded env depth raw st Hd Hf).
    change (Json.eq_str (JStr "#") "#") with true. cbv iota.
    unfold Nav.hover_then_reselect, Nav._extract_clickable_elements.
    cbn [Json.strip].
    unfold Nav.try_except at 1 2. unfold Nav.bind at 1 2 3 4 5 6.
    unfold Nav.lift, Nav.call. cbn [world trace].
    rewrite Hc. cbn [Nat.ltb Nat.leb world trace].
    rewrite Hh. cbn [world trace]. rewrite Hw. cbn [world trace]. rewrite Hq.
    unfold Nav.ret at 1. repeat rewrite <- app_assoc. cbn [app].
    apply click_directly_total.
  - intros p st5.
    destruct (gemini_response env p w4) as [w5 [response|]] eqn:Ho.
    + intros Hx.
      rewrite (hover_path_recurses env depth raw st Hd Hf Hc Hh Hw Hq Ho).
      fold p. fold (st5 w5). destruct depth as [|depth].
      * reflexivity.
      * now rewrite click_undecodable.
    + rewrite (click_decoded env depth raw st Hd Hf).
      change (Json.eq_str (JStr "#") "#") with true. cbv iota.
      unfold Nav.hover_then_reselect, Nav._extract_clickable_elements.
      cbn [Json.strip].
      unfold Nav.try_except, Nav.bind, Nav.lift, Nav.call, Nav.ret.
      cbn [world trace]. rewrite Hc. cbn [Nat.ltb Nat.leb world trace].
      rewrite Hh. cbn [world trace]. rewrite Hw. cbn [world trace].
      rewrite Hq. cbn [world trace]. fold p. rewrite Ho.
      repeat rewrite <- app_assoc. reflexivity.
  - rewrite (click_decoded env depth raw st Hd Hf).
    change (Json.eq_str (JStr "#") "#") with true. cbv iota.
    unfold Nav.hover_then_reselect, Nav._extract_clickable_elements.
    cbn [Json.strip].
    unfold Nav.try_except, Nav.bind, Nav.lift, Nav.call, Nav.ret.
    cbn [world trace]. rewrite Hc. cbn [Nat.ltb Nat.leb world trace].
    rewrite Hh. cbn [world trace]. rewrite Hw. cbn [world trace]. rewrite Hq.
    repeat rewrite <- app_assoc. reflexivity.
Qed.

End ExecutorMore.

(* ================================================================= *)
(** ** More on the traces of the executor and of a session *)

Section Traces.

Variable W : Type.
Variable env : Env W.

Lemma clicks_app (a b : list event) : clicks (a ++ b) = clicks a + clicks b.
Proof. unfold clicks. now rewrite filter_app, length_app. Qed.

Lemma clicks_snoc (tr : list event) (e : event) :
  clicks (tr ++ [e]) = clicks tr + (if is_click e then 1 else 0).
Proof. rewrite clicks_app. unfold clicks. simpl. now destruct (is_click e). Qed.

Section Emits.

Variable P : event -> bool.

Lemma emits_ret {A} (a : A) : Nav.emits P (Nav.ret (W:=W) a).
Proof. intros st. exists []. simpl. now rewrite app_nil_r. Qed.

Lemma emits_lift {A} (r : res A) : Nav.emits P (Nav.lift (W:=W) r).
Proof. intros st. exists []. simpl. now rewrite app_nil_r. Qed.

Lemma emits_call {A} (e : event) (f : W -> W * res A) :
  P e = true -> Nav.emits P (Nav.call e f).
Proof.
  intros He st. exists [e]. unfold Nav.call.
  destruct (f (world st)) as [w r]. simpl. now rewrite He.
Qed.

Lemma emits_bind {A B} (m : Nav.M W A) (k : A -> Nav.M W B) :
  Nav.emits P m -> (forall a, Nav.emits P (k a)) -> Nav.emits P (Nav.bind m k).
Proof.
  intros Hm Hk st. unfold Nav.bind. destruct (Hm st) as (e1 & H1 & P1).
  destruct (m st) as [st' [a|]]; simpl in *; [|eauto].
  destruct (Hk a st') as (e2 & H2 & P2). exists (e1 ++ e2)%list.
  now rewrite H2, H1, app_assoc, forallb_app, P1, P2.
Qed.

Lemma emits_try {A} (m h : Nav.M W A) :
  Nav.emits P m -> Nav.emits P h -> Nav.emits P (Nav.try_except m h).
Proof.
  intros Hm Hh st. unfold Nav.try_except. destruct (Hm st) as (e1 & H1 & P1).
  destruct (m st) as [st' [a|]]; simpl in *; [eauto|].
  destruct (Hh st') as (e2 & H2 & P2). exists (e1 ++ e2)%list.
  now rewrite H2, H1, app_assoc, forallb_app, P1, P2.
Qed.

Hypothesis click_and_wait : forall e, click_or_wait e = true -> P e = true.

Lemma emits_click_directly settle href element_text next_steps :
  Nav.emits P (Nav.click_directly env settle href element_text next_steps).
Proof.
  unfold Nav.click_directly. apply emits_bind; [apply emits_lift|].
  intros sels. induction sels as [|selector rest IH]; simpl;
    [apply emits_ret|].
  apply emits_try; [|exact IH]. unfold Nav.attempt.
  repeat (apply emits_bind; [|intros ?]);
    try apply emits_ret; apply emits_call; now apply click_and_wait.
Qed.

Lemma emits_sample raw :
  Nav.emits P (Nav.sample_click_recommended_elements env raw).
Proof.
  unfold Nav.sample_click_recommended_elements.
  apply emits_bind; [apply emits_lift | intros data].
  apply emits_try; [|apply emits_ret].
  apply emits_bind; [apply emits_lift | intros [[et href] ns]].
  destruct (Json.falsy href); [apply emits_ret|].
  apply emits_click_directly.
Qed.

End Emits.

Lemma emits_click depth : forall raw,
  Nav.emits in_loop (Nav._click_recommended_elements env depth raw).
Proof.
  induction depth as [|depth IH]; intros raw; simpl.
  - intros st. exists []. simpl. now rewrite app_nil_r.
  - apply emits_bind; [apply emits_lift | intros data].
    apply emits_try; [|apply emits_ret].
    apply emits_bind; [apply emits_lift | intros [[et href] ns]].
    apply emits_bind.
    + destruct (Json.eq_str href "#"); [|apply emits_ret].
      unfold Nav.hover_then_reselect, Nav._extract_clickable_elements.
      apply emits_try; [|apply emits_ret].
      apply emits_bind; [apply emits_lift | intros stripped].
      apply emits_bind; [now apply emits_call | intros n].
      destruct (0 <? n); [|apply emits_ret].
      apply emits_bind; [now apply emits_call | intros _].
      apply emits_bind; [now apply emits_call | intros _].
      apply emits_bind; [now apply emits_call | intros elements].
      destruct elements as [|e es]; [apply emits_ret|].
      apply emits_bind; [now apply emits_call | intros response].
      apply emits_bind; [apply IH | intros o; apply emits_ret].
    + intros [o|]; [apply emits_ret|].
      apply emits_click_directly. now intros [].
Qed.

Lemma iteration_emits prompt st :
  exists evs : list event,
    trace (fst (Nav.iteration env prompt st)) = (trace st ++ evs)%list
    /\ forallb in_loop evs = true.
Proof.
  unfold Nav.iteration, Nav._extract_clickable_elements.
  destruct (@emits_call in_loop _ EvQuery
              (query_selector_all env "a, button") eq_refl st)
    as (e1 & H1 & P1).
  destruct (Nav.call EvQuery (query_selector_all env "a, button") st)
    as [st1 [elements|]]; simpl in H1; [|eauto].
  destruct elements as [|e es]; [eauto|].
  match goal with
  | |- context [Nav.bind ?m ?k st1] =>
      assert (Nav.emits in_loop (Nav.bind m k)) as Hb
        by (apply emits_bind; [now apply emits_call | intros ?; apply emits_click]);
      destruct (Hb st1) as (e2 & H2 & P2);
      destruct (Nav.bind m k st1) as [st2 [o|]]
  end; simpl in H2; exists (e1 ++ e2)%list;
    (split; [|now rewrite forallb_app, P1, P2]).
  - destruct (truthy o); simpl; now rewrite H2, H1, app_assoc.
  - simpl. now rewrite H2, H1, app_assoc.
Qed.

Lemma loop_emits tries prompt : forall st,
  exists evs : list event,
    trace (fst (Nav.navigation_loop env tries prompt st))
    = (trace st ++ evs)%list
    /\ forallb in_loop evs = true.
Proof.
  induction tries as [|n IH]; intros st; simpl.
  - exists []. now rewrite app_nil_r.
  - destruct (iteration_emits prompt st) as (e1 & H1 & P1).
    destruct (Nav.iteration env prompt st) as [st' [|t]]; simpl in H1; [|eauto].
    destruct (IH st') as (e2 & H2 & P2). exists (e1 ++ e2)%list.
    now rewrite H2, H1, app_assoc, forallb_app, P1, P2.
Qed.

(** X16: a session whose browser, page and navigation succeed makes its
    calls in this order: the launch, the new page, one navigation, to the
    extracted URL, then only queries, oracle calls, counts, hovers, waits
    and clicks, and last the close.  It never navigates a second time. *)
Theorem session_navigates_once self prompt st w0 u0 w1 u1 url w2 u2 :
  launch env (world st) = (w0, Ok u0) ->
  new_page env w0 = (w1, Ok u1) ->
  Nav._extract_url_from_prompt prompt = Some url ->
  goto env url w1 = (w2, Ok u2) ->
  exists evs : list event,
    trace (fst (Nav.visit_website env self prompt st))
    = (trace st ++ [EvLaunch; EvNewPage; EvGoto url] ++ evs ++ [EvClose])%list
    /\ forallb in_loop evs = true.
Proof.
  intros Hl Hn Hu Hg.
  rewrite (visit_website_loop env self prompt st Hl Hn Hu Hg).
  destruct (loop_emits (MAX_TRIES self) prompt
              {| world := w2;
                 trace := trace st ++ [EvLaunch; EvNewPage; EvGoto url] |})
    as (evs & He & Pe).
  destruct (Nav.navigation_loop env (MAX_TRIES self) prompt _) as [st3 t].
  simpl in *. exists evs. split; [|exact Pe].
  rewrite He. now rewrite <- !app_assoc.
Qed.

Lemma within_ret {A} (a : A) : Nav.clicks_within 0 (Nav.ret (W:=W) a).
Proof. intros st. simpl. lia. Qed.

Lemma within_lift {A} (r : res A) : Nav.clicks_within 0 (Nav.lift (W:=W) r).
Proof. intros st. simpl. lia. Qed.

Lemma within_call {A} (e : event) (f : W -> W * res A) :
  Nav.clicks_within (if is_click e then 1 else 0) (Nav.call e f).
Proof.
  intros st. unfold Nav.call. destruct (f (world st)) as [w r]. simpl.
  rewrite clicks_snoc. lia.
Qed.

Lemma within_bind {A B} n j (m : Nav.M W A) (k : A -> Nav.M W B) :
  Nav.clicks_within n m -> (forall a, Nav.clicks_within j (k a)) ->
  Nav.clicks_within (n + j) (Nav.bind m k).
Proof.
  intros Hm Hk st. unfold Nav.bind. specialize (Hm st).
  destruct (m st) as [st' [a|]]; simpl in *; [|lia].
  specialize (Hk a st'). lia.
Qed.

Lemma within_try {A} n j (m h : Nav.M W A) :
  Nav.clicks_within n m -> Nav.clicks_within j h ->
  Nav.clicks_within (n + j) (Nav.try_except m h).
Proof.
  intros Hm Hh st. unfold Nav.try_except. specialize (Hm st).
  destruct (m st) as [st' [a|]]; simpl in *; [lia|].
  specialize (Hh st'). lia.
Qed.

Lemma within_more {A} n j (m : Nav.M W A) :
  n <= j -> Nav.clicks_within n m -> Nav.clicks_within j m.
Proof. intros Hle Hm st. specialize (Hm st). lia. Qed.

Lemma within_attempt settle selector :
  Nav.clicks_within 1 (Nav.attempt env settle selector).
Proof.
  intros st. unfold Nav.attempt, Nav.bind, Nav.call.
  destruct (click env selector (world st)) as [w1 [u|]]; cbn [fst trace world].
  - destruct (wait_for_timeout env settle w1) as [w2 r]; cbn [fst trace].
    destruct r; cbn [fst trace]; rewrite !clicks_snoc; cbn; lia.
  - rewrite clicks_snoc. cbn. lia.
Qed.

Lemma within_try_selectors settle sels next_steps :
  Nav.clicks_within (List.length sels)
    (Nav.try_selectors env settle sels next_steps).
Proof.
  induction sels as [|selector rest IH]; intros st; simpl; [lia|].
  unfold Nav.try_except, Nav.bind, Nav.ret.
  pose proof (within_attempt settle selector st) as Ha.
  destruct (Nav.attempt env settle selector st) as [st1 [u|]]; simpl in *;
    [lia|].
  specialize (IH st1). lia.
Qed.

Lemma within_click_directly settle href element_text next_steps :
  Nav.clicks_within 2
    (Nav.click_directly env settle href element_text next_steps).
Proof.
  intros st. unfold Nav.click_directly, Nav.selectors.
  destruct (Json.strip element_text) as [t|]; unfold Nav.bind, Nav.lift.
  - apply (within_try_selectors settle
             [Nav.attr_selector env href; Nav.text_selector t] next_steps st).
  - simpl. lia.
Qed.

(** What the hover block does to the number of clicks: none when it
    leaves the click to the rest of the function. *)
Lemma hover_clicks click_again element_text :
  (forall response, Nav.clicks_within 2 (click_again response)) ->
  forall st,
    match Nav.hover_then_reselect env click_again element_text st with
    | (st', Ok FallThrough) => clicks (trace st') = clicks (trace st)
    | (st', _) => clicks (trace st') <= clicks (trace st) + 2
    end.
Proof.
  intros Hrec st.
  unfold Nav.hover_then_reselect, Nav._extract_clickable_elements.
  unfold Nav.try_except, Nav.bind, Nav.lift, Nav.call, Nav.ret.
  destruct (Json.strip element_text) as [stripped|]; [|lia].
  cbn [world trace].
  destruct (locator_count env _ (world st)) as [w1 [[|n]|]];
    cbn [Nat.ltb Nat.leb world trace];
    try (rewrite ?clicks_snoc; cbn; lia).
  destruct (locator_hover env _ w1) as [w2 [u2|]]; cbn [world trace];
    try (rewrite ?clicks_snoc; cbn; lia).
  destruct (wait_for_timeout env _ w2) as [w3 [u3|]]; cbn [world trace];
    try (rewrite ?clicks_snoc; cbn; lia).
  destruct (query_selector_all env _ w3) as [w4 [[|e es]|]];
    cbn [world trace]; try (rewrite ?clicks_snoc; cbn; lia).
  destruct (gemini_response env _ w4) as [w5 [response|]]; cbn [world trace];
    try (rewrite ?clicks_snoc; cbn; lia).
  match goal with
  | |- context [click_again response ?s] =>
      pose proof (Hrec response s) as Hr;
      destruct (click_again response s) as [st6 [o|]]
  end; cbn [fst trace] in *; rewrite ?clicks_snoc in Hr; cbn in Hr; lia.
Qed.

Lemma within_click depth : forall raw,
  Nav.clicks_within 2 (Nav._click_recommended_elements env depth raw).
Proof.
  induction depth as [|depth IH]; intros raw st; simpl; [lia|].
  unfold Nav.bind at 1. unfold Nav.lift at 1.
  destruct (Nav._extract_json_from_gemini_response env raw) as [data|];
    [|simpl; lia].
  unfold Nav.try_except. unfold Nav.bind at 1. unfold Nav.lift at 1.
  destruct (Nav.read_fields data) as [[[et href] ns]|]; [|simpl; lia].
  unfold Nav.bind at 1.
  destruct (Json.eq_str href "#").
  - pose proof (@hover_clicks _ et IH st) as Hh.
    destruct (Nav.hover_then_reselect env
                (Nav._click_recommended_elements env depth) et st)
      as [st1 [[o|]|]]; simpl in *; try lia.
    pose proof (within_click_directly 5000 href et ns st1) as Hd.
    destruct (Nav.click_directly env 5000 href et ns st1) as [st2 [o|]];
      simpl in *; lia.
  - unfold Nav.ret at 1.
    pose proof (within_click_directly 5000 href et ns st) as Hd.
    destruct (Nav.click_directly env 5000 href et ns st) as [st2 [o|]];
      simpl in *; lia.
Qed.

Lemma iteration_clicks prompt st :
  clicks (trace (fst (Nav.iteration env prompt st))) <= clicks (trace st) + 2.
Proof.
  unfold Nav.iteration, Nav._extract_clickable_elements.
  unfold Nav.call at 1.
  destruct (query_selector_all env "a, button" (world st))
    as [w1 [[|e es]|]]; cbn [fst trace];
    try (rewrite clicks_snoc; cbn; lia).
  unfold Nav.bind, Nav.call. cbn [world trace].
  destruct (gemini_response env _ w1) as [w2 [response|]]; cbn [fst trace].
  2: { rewrite !clicks_snoc. cbn. lia. }
  match goal with
  | |- context [Nav._click_recommended_elements env ?d response ?s] =>
      pose proof (within_click d response s) as Hc;
      destruct (Nav._click_recommended_elements env d response s)
        as [st2 [o|]]
  end; cbn [fst trace] in *; rewrite !clicks_snoc in Hc; cbn in Hc.
  - destruct (truthy o); cbn; lia.
  - cbn. lia.
Qed.

Lemma loop_clicks tries prompt : forall st,
  clicks (trace (fst (Nav.navigation_loop env tries prompt st)))
  <= clicks (trace st) + 2 * tries.
Proof.
  induction tries as [|n IH]; intros st; simpl; [lia|].
  pose proof (iteration_clicks prompt st) as Hi.
  destruct (Nav.iteration env prompt st) as [st' [|t]]; simpl in *; [|lia].
  specialize (IH st'). lia.
Qed.

(** X14: whatever the page and the model do and however deep the hover
    path nests, one call of the executor attempts at most two clicks, and
    a session attempts at most two clicks for each pass of its budget. *)
Theorem at_most_two_clicks_per_pass :
  (forall depth raw st,
      clicks (trace (fst (Nav._click_recommended_elements env depth raw st)))
      <= clicks (trace st) + 2)
  /\ (forall self prompt st,
        clicks (trace (fst (Nav.visit_website env self prompt st)))
        <= clicks (trace st) + 2 * MAX_TRIES self).
Proof.
  split; [intros depth raw st; apply within_click|].
  intros self prompt st. unfold Nav.visit_website, Nav.session.
  unfold Nav.call at 1.
  destruct (launch env (world st)) as [w0 [u0|]]; cbn [fst trace world];
    [|rewrite clicks_snoc; cbn; lia].
  unfold Nav.call at 1. cbn [world trace].
  destruct (new_page env w0) as [w1 [u1|]]; cbn [fst trace world].
  2: { unfold Nav.call. cbn [world trace].
       destruct (close env w1) as [w2 [u2|]]; cbn [fst trace];
         rewrite !clicks_snoc; cbn; lia. }
  destruct (Nav._extract_url_from_prompt prompt) as [url|].
  2: { unfold Nav.call. cbn [world trace].
       destruct (close env w1) as [w2 [u2|]]; cbn [fst trace];
         rewrite !clicks_snoc; cbn; lia. }
  unfold Nav.call at 1. cbn [world trace].
  destruct (goto env url w1) as [w2 [u2|]].
  2: { unfold Nav.call. cbn [world trace].
       destruct (close env w2) as [w3 [u3|]]; cbn [fst trace];
         rewrite !clicks_snoc; cbn; lia. }
  match goal with
  | |- context [Nav.navigation_loop env ?n prompt ?s] =>
      pose proof (loop_clicks n prompt s) as Hl;
      destruct (Nav.navigation_loop env n prompt s) as [st3 t]
  end.
  cbn [trace] in Hl. rewrite !clicks_snoc in Hl. cbn in Hl.
  unfold Nav.call.
  destruct (close env (world st3)) as [w4 [u4|]]; cbn [fst trace];
    rewrite clicks_snoc; cbn; lia.
Qed.

(** X15: the executor of [sample.py] touches the page through clicks and
    settling waits only, with at most two clicks: it never asks the
    oracle, never queries the page and never hovers. *)
Theorem sample_executor_only_clicks raw st :
  exists evs : list event,
    trace (fst (Nav.sample_click_recommended_elements env raw st))
    = (trace st ++ evs)%list
    /\ forallb click_or_wait evs = true
    /\ clicks evs <= 2.
Proof.
  destruct (@emits_sample click_or_wait (fun e H => H) raw st)
    as (evs & He & Pe).
  exists evs. split; [exact He|]. split; [exact Pe|].
  assert (clicks (trace (fst (Nav.sample_click_recommended_elements env raw
                                st))) <= clicks (trace st) + 2) as Hc.
  { unfold Nav.sample_click_recommended_elements.
    unfold Nav.bind at 1. unfold Nav.lift at 1.
    destruct (Nav._extract_json_from_gemini_response env raw) as [data|];
      [|simpl; lia].
    unfold Nav.try_except. unfold Nav.bind at 1. unfold Nav.lift at 1.
    destruct (Nav.read_fields data) as [[[et href] ns]|]; [|simpl; lia].
    destruct (Json.falsy href); [simpl; lia|].
    pose proof (within_click_directly 10000 href et ns st) as Hd.
    destruct (Nav.click_directly env 10000 href et ns st) as [st2 [o|]];
      simpl in *; lia. }
  rewrite He, clicks_app in Hc. lia.
Qed.

End Traces.

(* ================================================================= *)
(** ** More on the session *)

Section SessionMore.

Variable W : Type.
Variable env : Env W.

(** X17: a failure before the loop ends the session with [None] and the
    loop is not entered.  When the launch raises nothing is closed; when
    opening the page raises the instruction is not even looked at; when
    the navigation raises no element is queried; in the last two cases
    the browser is closed. *)
Theorem startup_failure_skips_the_loop self prompt st :
  match launch env (world st) with
  | (w0, Exc) =>
      Nav.visit_website env self prompt st
      = ({| world := w0; trace := trace st ++ [EvLaunch] |},
         Returns PageError)
  | (w0, Ok _) =>
      match new_page env w0 with
      | (w1, Exc) =>
          Nav.visit_website env self prompt st
          = ({| world := fst (close env w1);
                trace := trace st ++ [EvLaunch; EvNewPage; EvClose] |},
             match snd (close env w1) with
             | Ok _ => Returns PageError
             | Exc => Raises
             end)
      | (w1, Ok _) =>
          forall url w2,
            Nav._extract_url_from_prompt prompt = Some url ->
            goto env url w1 = (w2, Exc) ->
            Nav.visit_website env self prompt st
            = ({| world := fst (close env w2);
                  trace := trace st
                           ++ [EvLaunch; EvNewPage; EvGoto url; EvClose] |},
               match snd (close env w2) with
               | Ok _ => Returns PageError
               | Exc => Raises
               end)
      end
  end
  /\ return_value PageError = PNone.
Proof.
  split; [|reflexivity].
  destruct (launch env (world st)) as [w0 [u0|]] eqn:Hl.
  2: { unfold Nav.visit_website, Nav.call. now rewrite Hl. }
  destruct (new_page env w0) as [w1 [u1|]] eqn:Hn.
  - intros url w2 Hu Hg. unfold Nav.visit_website, Nav.session, Nav.call.
    rewrite Hl. cbn [world trace]. rewrite Hn, Hu. cbn [world trace].
    rewrite Hg. cbn [world trace].
    destruct (close env w2) as [w3 [u3|]]; cbn [fst snd];
      now rewrite <- !app_assoc.
  - unfold Nav.visit_website, Nav.session, Nav.call.
    rewrite Hl. cbn [world trace]. rewrite Hn. cbn [world trace].
    destruct (close env w1) as [w2 [u2|]]; cbn [fst snd];
      now rewrite <- !app_assoc.
Qed.

(** X18: inside the loop, a query that raises ends the session with
    [None] before the oracle is asked, and an oracle that raises ends it
    with [None] before anything is clicked. *)
Theorem failing_query_or_oracle_ends_the_session tries prompt st :
  match query_selector_all env "a, button" (world st) with
  | (w1, Exc) =>
      Nav.navigation_loop env (S tries) prompt st
      = ({| world := w1; trace := trace st ++ [EvQuery] |}, PageError)
  | (w1, Ok []) => True
  | (w1, Ok (e :: es)) =>
      let p := Nav._create_gemini_prompt env prompt
                 (Nav._process_elements (e :: es)) in
      forall w2,
        gemini_response env p w1 = (w2, Exc) ->
        Nav.navigation_loop env (S tries) prompt st
        = ({| world := w2; trace := trace st ++ [EvQuery; EvOracle p] |},
           DecisionError)
  end
  /\ return_value PageError = PNone
  /\ return_value DecisionError = PNone.
Proof.
  split; [|split; reflexivity].
  destruct (query_selector_all env "a, button" (world st))
    as [w1 [[|e es]|]] eqn:Hq; [exact I| |].
  - intros p w2 Ho. cbn [Nav.navigation_loop].
    unfold Nav.iteration, Nav._extract_clickable_elements.
    unfold Nav.bind, Nav.call. rewrite Hq. cbn [world trace].
    fold p. rewrite Ho. now rewrite <- app_assoc.
  - cbn [Nav.navigation_loop].
    unfold Nav.iteration, Nav._extract_clickable_elements, Nav.call.
    now rewrite Hq.
Qed.

Lemma iteration_never_exhausted prompt st :
  snd (Nav.iteration env prompt st) <> Nav.Exit Exhausted.
Proof.
  unfold Nav.iteration.
  destruct (Nav._extract_clickable_elements env st)
    as [st1 [[|e es]|]]; try discriminate.
  match goal with
  | |- context [Nav.bind ?m ?k st1] =>
      destruct (Nav.bind m k st1) as [st2 [[| |]|]]
  end; discriminate.
Qed.

(** X19: budgets compose.  A loop of [n + m] passes is a loop of [n]
    passes followed, when those run out, by a loop of [m] passes from
    where they stopped; so a session that ends on its own within [n]
    passes ends in the same way under any larger budget. *)
Theorem loop_budgets_compose prompt n st :
  (forall m,
      Nav.navigation_loop env (n + m) prompt st
      = match Nav.navigation_loop env n prompt st with
        | (st', Exhausted) => Nav.navigation_loop env m prompt st'
        | (st', t) => (st', t)
        end)
  /\ (forall st' t k,
        Nav.navigation_loop env n prompt st = (st', t) ->
        t <> Exhausted -> n <= k ->
        Nav.navigation_loop env k prompt st = (st', t)).
Proof.
  assert (forall j m s,
    Nav.navigation_loop env (j + m) prompt s
    = match Nav.navigation_loop env j prompt s with
      | (st', Exhausted) => Nav.navigation_loop env m prompt st'
      | (st', t) => (st', t)
      end) as Hcomp.
  { induction j as [|j IH]; intros m s; [reflexivity|].
    cbn [Nat.add Nav.navigation_loop].
    pose proof (iteration_never_exhausted prompt s) as Hi.
    destruct (Nav.iteration env prompt s) as [s' [|t]]; [apply IH|].
    destruct t; try reflexivity. now elim Hi. }
  split; [intros m; apply Hcomp|].
  intros st' t k Hn Ht Hk.
  replace k with (n + (k - n)) by lia. rewrite Hcomp, Hn.
  destruct t; try reflexivity. now elim Ht.
Qed.

(** X20: [main] never prints a result: whatever the session does, what it
    returns is falsy or it raises, so the branch that prints is never
    taken.  The instruction of [main] holds the URL the session goes
    to. *)
Theorem main_never_prints st :
  snd (Nav.main env st) = None
  /\ Nav._extract_url_from_prompt Nav.main_prompt
     = Some "https://itat.gov.in/".
Proof.
  split; [|vm_compute; reflexivity].
  unfold Nav.main.
  destruct (Nav.visit_website env __init__ Nav.main_prompt st)
    as [st' [t|]]; [|reflexivity].
  destruct t; reflexivity.
Qed.

End SessionMore.

(* ================================================================= *)
(** ** The further theorems at work *)

(** X1 on the instruction of the scripted sessions. *)
Lemma well_formed_url_witness :
  Nav._extract_url_from_prompt Fixture.goal = Some Fixture.site_url
  /\ exists scheme body,
       Fixture.site_url = scheme ++ body
       /\ (scheme = "http://" \/ scheme = "https://")
       /\ body <> ""
       /\ all_chars Regex.url_char Fixture.site_url = true.
Proof.
  split; [exact Runs.goal_url|].
  exact (proj2 (extracted_url_is_well_formed Fixture.goal) Fixture.site_url
           Runs.goal_url).
Defined.

(** X2 on the same instruction. *)
Lemma leftmost_url_witness :
  exists pre post,
    Fixture.goal = pre ++ Fixture.site_url ++ post
    /\ match post with
       | EmptyString => True
       | String c _ => Regex.url_char c = false
       end
    /\ forall a b, pre = a ++ b -> b <> "" ->
                   Regex.match_url_at (b ++ Fixture.site_url ++ post) = None.
Proof.
  exact (extracted_url_is_leftmost_and_maximal Fixture.goal Runs.goal_url).
Defined.

(** X3 on an instruction whose URL is a single character long. *)
Lemma url_found_witness :
  exists url, Nav._extract_url_from_prompt "see http://a" = Some url.
Proof.
  apply (proj2 (url_found_when_scheme_has_a_body "see http://a")
           "see " "http://" "a"%char "");
    [now left | reflexivity | reflexivity].
Defined.

(** X5 on a page with an element whose visibility cannot be read. *)
Lemma skipped_element_witness :
  is_visible Fixture2.broken = Exc
  /\ Nav._process_elements
       [Fixture.link "Docs" "/docs" true; Fixture2.broken;
        Fixture.link "Download" "/file.pdf" true]
     = Nav._process_elements
         [Fixture.link "Docs" "/docs" true;
          Fixture.link "Download" "/file.pdf" true].
Proof.
  split; [reflexivity|].
  apply (failing_element_is_skipped [Fixture.link "Docs" "/docs" true]
           [Fixture.link "Download" "/file.pdf" true] Fixture2.broken).
  do 3 right. now left.
Defined.

(** X7 on the answer [{}] with a blank around it. *)
Lemma unfenced_text_witness :
  contains Regex.fence " {} " = false
  /\ Nav.clean_json " {} " = "{}".
Proof.
  split; [reflexivity|].
  rewrite (text_without_fence_is_only_trimmed " {} " eq_refl). reflexivity.
Defined.

(** X9 on an answer and its terse form. *)
Lemma three_fields_witness :
  Nav.read_fields Fixture.docs = Nav.read_fields Fixture2.terse
  /\ Nav._click_recommended_elements (Fixture2.clicking ["a[href='/docs']"]) 1
       (Fixture.dumps Fixture.docs) (Fixture.start [])
     = Nav._click_recommended_elements (Fixture2.clicking ["a[href='/docs']"])
         1 (Fixture.dumps Fixture2.terse) (Fixture.start []).
Proof.
  split; [reflexivity|].
  apply (only_three_fields_matter (Fixture2.clicking ["a[href='/docs']"]) 0
           (Fixture.dumps Fixture.docs) (Fixture.dumps Fixture2.terse)
           (data1:=Fixture.docs) (data2:=Fixture2.terse) (Fixture.start []));
    vm_compute; reflexivity.
Defined.

(** X10 on a click that goes through with [exit_now]. *)
Lemma exit_now_witness :
  exists o,
    snd (Nav.click_directly (Fixture.clicking ["a[href='/docs']"]) 5000
           (JStr "/docs") (JStr "Docs") (JStr "exit_now") (Fixture.start []))
    = Ok o
    /\ (o = Stop -> JStr "exit_now" = JStr "exit_now")
    /\ (o = Continue -> JStr "exit_now" <> JStr "exit_now").
Proof.
  exact (exit_now_decides_stop (Fixture.clicking ["a[href='/docs']"]) 5000
           (JStr "/docs") "Docs" (JStr "exit_now") (Fixture.start [])).
Defined.

(** X11 on an answer whose [next_steps] is the string [exit_now]. *)
Lemma string_next_steps_witness :
  Nav.read_fields Fixture2.stringly = Ok (JStr "Docs", JStr "/docs", JStr "e")
  /\ Nav.verdict (JStr "e") = Continue.
Proof.
  split; [reflexivity|].
  exact (proj1 (string_next_steps_never_stops
                  (Fixture2.clicking []) Fixture2.stringly
                  (s:="exit_now") eq_refl eq_refl)).
Defined.

(** X12 on the menu page when the model has no answer left after the
    hover. *)
Lemma hover_block_witness :
  Nav._click_recommended_elements (Fixture.menu 1) 2
    (Fixture.dumps Fixture.services) (Fixture.start [])
  = ({| world := []; trace := Fixture.hover_events 1 |}, Ok Failed).
Proof.
  exact (hover_block_failures (Fixture.menu 1) 1
           (Fixture.dumps Fixture.services) (data:=Fixture.services)
           (text:="Services") (next_steps:=JStr "pick an entry")
           (Fixture.start []) (n:=0) (w1:=[]) (w2:=[]) (u2:=tt)
           ltac:(vm_compute; reflexivity) ltac:(vm_compute; reflexivity)
           eq_refl eq_refl).
Defined.

(** X13 on an answer whose [element_text] is [null]. *)
Lemma non_text_target_witness :
  Json.strip JNull = Exc
  /\ Nav._click_recommended_elements (Fixture2.clicking ["a[href='/docs']"]) 1
       (Fixture.dumps Fixture2.untexted) (Fixture.start [])
     = (Fixture.start [], Ok Failed).
Proof.
  split; [reflexivity|].
  apply (non_text_target_fails_untouched
           (Fixture2.clicking ["a[href='/docs']"]) 0
           (Fixture.dumps Fixture2.untexted) (data:=Fixture2.untexted)
           (element_text:=JNull) (href:=JStr "/docs")
           (next_steps:=JStr "read the page") (Fixture.start []));
    vm_compute; reflexivity.
Defined.

(** X16 on a session whose click fails. *)
Lemma navigates_once_witness :
  exists evs : list event,
    trace (fst (Nav.visit_website Fixture.still __init__ Fixture.goal
                  (Fixture.start [Fixture.dumps Fixture.download])))
    = ([] ++ [EvLaunch; EvNewPage; EvGoto Fixture.site_url] ++ evs
       ++ [EvClose])%list
    /\ forallb in_loop evs = true.
Proof.
  exact (session_navigates_once Fixture.still __init__ Fixture.goal
           (Fixture.start [Fixture.dumps Fixture.download])
           (w0:=[Fixture.dumps Fixture.download]) (u0:=tt)
           (w1:=[Fixture.dumps Fixture.download]) (u1:=tt)
           (w2:=[Fixture.dumps Fixture.download]) (u2:=tt)
           eq_refl eq_refl Runs.goal_url eq_refl).
Defined.

(** X17 in a world where no browser can be launched. *)
Lemma startup_failure_witness :
  Nav.visit_website Fixture2.unlaunchable __init__ Fixture.goal
    (Fixture.start [])
  = ({| world := []; trace := [EvLaunch] |}, Returns PageError).
Proof.
  exact (proj1 (startup_failure_skips_the_loop Fixture2.unlaunchable __init__
                  Fixture.goal (Fixture.start []))).
Defined.

(** X18 with a model that has no answer. *)
Lemma failing_oracle_witness :
  snd (Nav.navigation_loop Fixture.still 1 Fixture.goal (Fixture.start []))
  = DecisionError.
Proof.
  rewrite (proj1 (failing_query_or_oracle_ends_the_session Fixture.still 0
                    Fixture.goal (Fixture.start [])) [] eq_refl).
  reflexivity.
Defined.

(** X19 on a session that fails in its first pass: the default budget
    changes nothing. *)
Lemma larger_budget_witness :
  Nav.navigation_loop Fixture.still 100 Fixture.goal (Fixture.start ["{}"])
  = Nav.navigation_loop Fixture.still 1 Fixture.goal (Fixture.start ["{}"]).
Proof.
  apply (proj2 (loop_budgets_compose Fixture.still Fixture.goal 1
                  (Fixture.start ["{}"]))
           (fst (Nav.navigation_loop Fixture.still 1 Fixture.goal
                   (Fixture.start ["{}"])))
           ActionFailed 100).
  - vm_compute. reflexivity.
  - discriminate.
  - lia.
Defined.

(** C9 as stated fails: the click on the selector matching [href] goes
    through, the settling wait after it raises, and the executor moves on
    to the text selector; its click fails and the outcome is failed, so
    the first selector that succeeded did not determine the outcome. *)
Lemma successful_click_with_raising_wait_moves_on :
  click (Fixture2.restless ["a[href='/docs']"]) "a[href='/docs']" []
  = ([], Ok tt)
  /\ Nav._click_recommended_elements (Fixture2.restless ["a[href='/docs']"]) 1
       (Fixture.dumps Fixture.docs) (Fixture.start [])
     = ({| world := [];
           trace := [EvClick "a[href='/docs']"; EvWait 5000;
                     EvClick "a:has-text('Docs')"] |},
        Ok Failed)
  /\ Nav.verdict (JStr "read the page") = Continue.
Proof. repeat split; vm_compute; reflexivity. Qed.
